(** * pi-dashboard: the camera, media and system facades, and the loader of
    the configuration

    A shallow embedding of [pi_dashboard/media/player.py],
    [pi_dashboard/camera/camera.py], [pi_dashboard/system/__init__.py] and
    [pi_dashboard/main.py], with the properties of the specification that
    concern them.

    A Python [str] is modelled as the [string] of its bytes in UTF-8.  The
    order of [String.leb], byte by byte, is then the order of Python, code
    point by code point, and the last dot of a name is at the same place,
    since a dot is one byte and no other character has this byte.
    [str.lower] is Unicode's and is not written out: the media library takes
    it as a parameter [lower], and what is proved holds for every function
    [lower].  Numbers that the source rounds to a fixed number of decimals
    are kept as integers counting the last decimal (hundredths of a
    gigabyte, tenths of a degree). *)

From Stdlib Require Import ZArith Ascii String List Permutation Sorted Lia.
From stdpp Require Import base option list sorting strings gmap.

Set Warnings "-register-all".

Local Open Scope string_scope.
Local Open Scope list_scope.
Local Open Scope Z_scope.

(** ** Strings, as the scan uses them *)

Module Str.

(** What [str.lower] does to a letter of ASCII. *)
Definition ascii_lower_char (c : ascii) : ascii :=
  let n := nat_of_ascii c in
  if ((65 <=? n) && (n <=? 90))%nat then ascii_of_nat (n + 32) else c.

(** What [str.lower] does to a string of ASCII characters: the instance of
    the parameter [lower] that the sample values, all in ASCII, are run
    with. *)
Fixpoint ascii_lower (s : string) : string :=
  match s with
  | EmptyString => EmptyString
  | String c s' => String (ascii_lower_char c) (ascii_lower s')
  end.

(** [s.rfind('.')]: the index of the last dot, [None] for Python's [-1]. *)
Fixpoint rfind_dot (s : string) : option nat :=
  match s with
  | EmptyString => None
  | String c s' =>
      match rfind_dot s' with
      | Some i => Some (S i)
      | None => if Ascii.eqb c "."%char then Some 0%nat else None
      end
  end.

(** [sep.join(parts)]. *)
Fixpoint join (sep : string) (parts : list string) : string :=
  match parts with
  | [] => ""
  | [p] => p
  | p :: ps => (p ++ sep ++ join sep ps)%string
  end.

(** [s.startswith('/')], which is [os.path.isabs] on POSIX. *)
Definition isabs (s : string) : bool :=
  match s with
  | String c _ => Ascii.eqb c "/"%char
  | EmptyString => false
  end.


End Str.

(** ** pathlib, as far as the scan uses it (POSIX flavour) *)

Module PathLib.

(** A pure path: whether it is anchored at the root, and its components. *)
Record Path := mkPath { is_absolute : bool; parts : list string }.

(** [str(p)]. *)
Definition str (p : Path) : string :=
  if is_absolute p then ("/" ++ Str.join "/" (parts p))%string
  else match parts p with
       | [] => "."
       | _ => Str.join "/" (parts p)
       end.

(** [p / rel] for a relative [rel]. *)
Definition joinpath (p : Path) (rel : list string) : Path :=
  mkPath (is_absolute p) (parts p ++ rel).

(** The split point of [name] that [suffix] and [stem] share:
    [i = name.rfind('.')] when [0 < i < len(name) - 1]. *)
Definition split_point (name : string) : option nat :=
  match Str.rfind_dot name with
  | Some i =>
      if ((0 <? i) && (i <? String.length name - 1))%nat then Some i else None
  | None => None
  end.

(** [PurePath.suffix] of a path whose last component is [name]. *)
Definition suffix (name : string) : string :=
  match split_point name with
  | Some i => substring i (String.length name - i) name
  | None => ""
  end.

(** [PurePath.stem] of a path whose last component is [name]. *)
Definition stem (name : string) : string :=
  match split_point name with
  | Some i => substring 0 i name
  | None => name
  end.

End PathLib.

(** ** The media library ([media/player.py]) *)

Module Media.
Import PathLib.

(** The file system below a directory.  A node is a [File] when
    [Path.is_file()] answers [True] for it; [stat] is what the later calls
    of [file_path.stat()] give, the [st_size] and the [st_mtime] (the time
    is kept as an opaque number), or [None] when they raise because the file
    went away in between.  [Unreadable] is an entry on which [is_file()]
    itself raises (the permission to look at it is missing).  Every other
    kind of entry is a [Dir], with its entries in the order the system
    lists them, or [Other] (a socket, a dangling link, ...). *)
Inductive node :=
| File (name : string) (stat : option (Z * Z))
| Dir (name : string) (children : list node)
| Unreadable (name : string)
| Other (name : string).

Definition node_name (n : node) : string :=
  match n with
  | File name _ => name
  | Dir name _ => name
  | Unreadable name => name
  | Other name => name
  end.

(** What a path leads to. *)
Inductive found :=
| Missing
| NotADirectory
| Directory (children : list node).

Definition filesystem := Path -> found.

(** [Path.exists()]. *)
Definition path_exists (fs : filesystem) (p : Path) : bool :=
  match fs p with
  | Missing => false
  | _ => true
  end.

Definition SUPPORTED_VIDEO : gset string :=
  {[ ".mp4"; ".mkv"; ".avi"; ".mov"; ".m4v"; ".webm" ]}.

Definition SUPPORTED_AUDIO : gset string :=
  {[ ".mp3"; ".m4a"; ".wav"; ".flac"; ".ogg" ]}.

(** The dictionary that [scan] appends for one file. *)
Record MediaFile := mkMediaFile {
  name : string;
  filename : string;
  path : string;
  relative_path : string;
  type : string;
  extension : string;
  size : Z;
  modified : Z
}.

Record MediaLibrary := mkMediaLibrary {
  library_path : Path;
  media_files : list MediaFile
}.

(** [MediaLibrary(library_path)]. *)
Definition init (library_path : Path) : MediaLibrary :=
  mkMediaLibrary library_path [].

(** [Path.rglob('*')] below a directory whose path relative to the library
    is [rel]: every entry of the directory, then what lies below each. *)
Fixpoint rglob_below (rel : list string) (n : node) {struct n}
  : list (list string * node) :=
  match n with
  | Dir _ cs =>
      map (fun c => (rel ++ [node_name c], c)) cs
      ++ flat_map (fun c => rglob_below (rel ++ [node_name c]) c) cs
  | _ => []
  end.

Definition rglob (fs : filesystem) (root : Path) : list (list string * node) :=
  match fs root with
  | Directory cs => rglob_below [] (Dir "" cs)
  | _ => []
  end.

(** [list.sort(key=...)]: the stable sort by the key. *)
Fixpoint insert_by (key : MediaFile -> string) (x : MediaFile)
  (l : list MediaFile) : list MediaFile :=
  match l with
  | [] => [x]
  | y :: l' =>
      if String.leb (key x) (key y) then x :: y :: l'
      else y :: insert_by key x l'
  end.

Fixpoint sort_by (key : MediaFile -> string) (l : list MediaFile)
  : list MediaFile :=
  match l with
  | [] => []
  | x :: l' => insert_by key x (sort_by key l')
  end.

(** What the body of the loop of [scan] does for one path. *)
Inductive outcome :=
| Appends (media : MediaFile)
| Skips
| Raises.

Section Lower.

(** [str.lower], the lower-casing of Unicode, on strings in UTF-8. *)
Variable lower : string -> string.

(** The body of the loop of [scan] for one path of the traversal. *)
Definition scan_step (root : Path) (e : list string * node) : outcome :=
  match e with
  | (rel, File fname stat) =>
      let ext := lower (suffix fname) in
      if bool_decide (ext ∈ SUPPORTED_VIDEO) || bool_decide (ext ∈ SUPPORTED_AUDIO)
      then
        let media_type :=
          if bool_decide (ext ∈ SUPPORTED_VIDEO) then "video" else "audio" in
        match stat with
        | Some (st_size, st_mtime) =>
            Appends {| name := stem fname;
                       filename := fname;
                       path := str (joinpath root rel);
                       relative_path := str (mkPath false rel);
                       type := media_type;
                       extension := ext;
                       size := st_size;
                       modified := st_mtime |}
        | None => Raises
        end
      else Skips
  | (_, Unreadable _) => Raises
  | _ => Skips
  end.

(** The record that the body appends for one path, if it appends one. *)
Definition scan_entry (root : Path) (e : list string * node)
  : option MediaFile :=
  match scan_step root e with
  | Appends media => Some media
  | _ => None
  end.

(** The loop of [scan] inside its [try]: the records appended, in the
    order of the traversal, and whether an exception ended the loop. *)
Fixpoint scan_try (root : Path) (es : list (list string * node))
  : list MediaFile * bool :=
  match es with
  | [] => ([], false)
  | e :: es' =>
      match scan_step root e with
      | Appends media =>
          let (appended, raised) := scan_try root es' in
          (media :: appended, raised)
      | Skips => scan_try root es'
      | Raises => ([], true)
      end
  end.

(** The records appended by the loop. *)
Definition scan_loop (root : Path) (es : list (list string * node))
  : list MediaFile :=
  (scan_try root es).1.

(** Whether the traversal of the library ends on an exception. *)
Definition traversal_raises (fs : filesystem) (root : Path) : bool :=
  (scan_try root (rglob fs root)).2.

(** The key of the sort: [x['name'].lower()]. *)
Definition sort_key (x : MediaFile) : string := lower (name x).

(** [MediaLibrary.scan]: the library after the call, and the list returned
    (which is the stored list itself).  When a step of the loop raises, the
    handler logs, the sort has been skipped and the records appended so far
    are returned. *)
Definition scan (fs : filesystem) (self : MediaLibrary)
  : MediaLibrary * list MediaFile :=
  let self := mkMediaLibrary (library_path self) [] in
  if negb (path_exists fs (library_path self)) then (self, media_files self)
  else
    let (appended, raised) :=
      scan_try (library_path self) (rglob fs (library_path self)) in
    let files :=
      if raised then media_files self ++ appended
      else sort_by sort_key (media_files self ++ appended) in
    (mkMediaLibrary (library_path self) files, files).

(** The number of media files of a tree: the files whose lower-cased
    extension is supported. *)
Definition is_media_name (fname : string) : bool :=
  let ext := lower (suffix fname) in
  bool_decide (ext ∈ SUPPORTED_VIDEO ∪ SUPPORTED_AUDIO).



End Lower.

(** [MediaLibrary.get_files]. *)
Definition get_files (self : MediaLibrary) (media_type : option string)
  : list MediaFile :=
  match media_type with
  | Some t =>
      if String.eqb t "" then media_files self
      else filter (fun f => type f = t) (media_files self)
  | None => media_files self
  end.

End Media.

(** ** The camera feeds ([camera/camera.py]) *)

Module Camera.

(** A decoded image, as [cv2] hands it over. *)
Definition Frame := list Z.

(** What the calls of [start] on the capture object do:
    [cv2.VideoCapture(camera_id)] raises; it returns an object, opened or
    not, whose [isOpened()] raises; the object is not opened; it is opened
    and one of the three [camera.set(...)] raises; it is opened and set. *)
Inductive capture_result :=
| CaptureRaises
| CaptureCheckRaises (opened : bool)
| CaptureClosed
| CaptureSetRaises
| CaptureOpened.

(** What [cv2.imencode('.jpg', frame, ...)] does: it raises, or returns
    [(ret, buffer)]. *)
Inductive imencode_result :=
| EncodeRaises
| Encoded (ret : bool) (buffer : list Z).

(** The library calls of the module: [CV2_AVAILABLE], [cv2.VideoCapture]
    with the calls on its object, whether [Thread.start()] of the capture
    thread of a camera succeeds ([false]: it raises), [cv2.imencode] and
    [base64.b64encode(...).decode('utf-8')]. *)
Record Cv2 := mkCv2 {
  CV2_AVAILABLE : bool;
  VideoCapture : Z -> capture_result;
  Thread_start : Z -> bool;
  imencode : Frame -> imencode_result;
  b64encode : list Z -> string
}.

(** [self.camera] is [None], or a capture object that is opened or not;
    [self.thread] is [None] or the capture thread ([thread] says which). *)
Record CameraFeed := mkCameraFeed {
  camera_id : Z;
  name : string;
  camera : option bool;
  frame : option Frame;
  running : bool;
  thread : bool
}.

(** [CameraFeed(camera_id, name)]. *)
Definition init (camera_id : Z) (name : string) : CameraFeed :=
  mkCameraFeed camera_id name None None false false.

(** [CameraFeed.start].  The handler of the [try] answers [False] and
    keeps what was assigned before the exception: the capture object, and
    when it is [Thread.start()] that raises, the running flag and the
    thread. *)
Definition start (cv2 : Cv2) (self : CameraFeed) : bool * CameraFeed :=
  if negb (CV2_AVAILABLE cv2) then (false, self)
  else
    match VideoCapture cv2 (camera_id self) with
    | CaptureRaises => (false, self)
    | CaptureCheckRaises opened =>
        (false, mkCameraFeed (camera_id self) (name self) (Some opened)
                  (frame self) (running self) (thread self))
    | CaptureClosed =>
        (false, mkCameraFeed (camera_id self) (name self) (Some false)
                  (frame self) (running self) (thread self))
    | CaptureSetRaises =>
        (false, mkCameraFeed (camera_id self) (name self) (Some true)
                  (frame self) (running self) (thread self))
    | CaptureOpened =>
        (Thread_start cv2 (camera_id self),
         mkCameraFeed (camera_id self) (name self) (Some true)
           (frame self) true true)
    end.

(** What [self.camera.read()] does in one iteration of the loop. *)
Inductive read_result :=
| ReadRaises
| Read (ret : bool) (frame : Frame).

(** One iteration of [CameraFeed._capture_loop], run by the capture thread:
    the feed after it, and whether the loop goes on. *)
Definition capture_step (r : read_result) (self : CameraFeed)
  : CameraFeed * bool :=
  if negb (running self) then (self, false)
  else
    match r with
    | ReadRaises => (self, false)
    | Read true fr =>
        (mkCameraFeed (camera_id self) (name self) (camera self) (Some fr)
           (running self) (thread self), true)
    | Read false _ => (self, true)
    end.

(** [CameraFeed.get_frame_jpeg]; the lock makes the body atomic. *)
Definition get_frame_jpeg (cv2 : Cv2) (self : CameraFeed) : option (list Z) :=
  match frame self with
  | None => None
  | Some fr =>
      match imencode cv2 fr with
      | Encoded true buffer => Some buffer
      | Encoded false _ => None
      | EncodeRaises => None
      end
  end.

(** [CameraFeed.get_frame_base64]. *)
Definition get_frame_base64 (cv2 : Cv2) (self : CameraFeed) : option string :=
  match get_frame_jpeg cv2 self with
  | Some (b :: bs) => Some (b64encode cv2 (b :: bs))
  | Some [] => None
  | None => None
  end.

(** [CameraFeed.stop]. *)
Definition stop (self : CameraFeed) : CameraFeed :=
  mkCameraFeed (camera_id self) (name self) (camera self) (frame self)
    false (thread self).

Record CameraModule := mkCameraModule {
  feeds : gmap Z CameraFeed
}.

(** [CameraModule.add_camera]. *)
Definition add_camera (cv2 : Cv2) (self : CameraModule) (camera_id : Z)
  (name : string) : bool * CameraModule :=
  match feeds self !! camera_id with
  | Some _ => (true, self)
  | None =>
      let (started, feed) := start cv2 (init camera_id name) in
      if started then (true, mkCameraModule (<[camera_id := feed]> (feeds self)))
      else (false, self)
  end.

(** [CameraModule.remove_camera]. *)
Definition remove_camera (self : CameraModule) (camera_id : Z) : CameraModule :=
  match feeds self !! camera_id with
  | Some _ => mkCameraModule (delete camera_id (feeds self))
  | None => self
  end.

(** The handler of [camera_frame_request]: the [camera_frame] event it
    emits, if any. *)
Definition handle_frame_request (cv2 : Cv2) (self : CameraModule)
  (camera_id : Z) : option (Z * string) :=
  match feeds self !! camera_id with
  | Some feed =>
      match get_frame_base64 cv2 feed with
      | Some (String c s) => Some (camera_id, String c s)
      | _ => None
      end
  | None => None
  end.

End Camera.

(** ** The system monitor ([system/__init__.py]) *)

Module System.

(** The quotient [n / d] rounded to the nearest integer, a tie going to
    the even one. *)
Definition round_half_even (n d : Z) : Z :=
  let q := n / d in
  let r := n mod d in
  if 2 * r <? d then q
  else if d <? 2 * r then q + 1
  else if Z.even q then q else q + 1.

(** The binary64 number nearest to the integer [0 <= n], a tie going to
    the even one: [n] itself below [2 ** 53], and [n] rounded to 53
    significant bits from there on (the range of binary64, which ends above
    [2 ** 1023], is taken to be wide enough). *)
Definition binary64 (n : Z) : Z :=
  if n <? 2 ^ 53 then n
  else
    let e := Z.log2 n - 52 in
    round_half_even n (2 ^ e) * 2 ^ e.

(** [round(n / d, ndigits)] for an integer [0 <= n] and a power of two [d],
    as the number of units of [1 / scale] of the result, where
    [scale = 10 ** ndigits].  The quotient of the two integers is the
    binary64 number nearest to it, which for a power of two [d] is
    [binary64 n / d]; [round] then rounds the exact value of this number to
    the nearest unit, a tie going to the even one. *)
Definition round_div (scale n d : Z) : Z :=
  round_half_even (scale * binary64 n) d.

(** [round(b / (1024**3), 2)], in hundredths of a gigabyte. *)
Definition to_gb (b : Z) : Z := round_div 100 b (1024 ^ 3).

(** [round(b / (1024**2), 2)], in hundredths of a megabyte. *)
Definition to_mb (b : Z) : Z := round_div 100 b (1024 ^ 2).

(** [psutil.virtual_memory()]; the percentage is in tenths, which is how
    [psutil] reports it and how [round(mem.percent, 1)] leaves it. *)
Record svmem := mksvmem {
  vm_total : Z;
  vm_available : Z;
  vm_used : Z;
  vm_percent : Z
}.

(** The dictionary of [get_memory_usage]. *)
Record MemoryUsage := mkMemoryUsage {
  mem_total : Z;
  mem_available : Z;
  mem_used : Z;
  mem_percent : Z;
  mem_total_gb : Z;
  mem_used_gb : Z;
  mem_available_gb : Z
}.

(** [SystemMonitor.get_memory_usage]. *)
Definition get_memory_usage (mem : svmem) : MemoryUsage :=
  {| mem_total := vm_total mem;
     mem_available := vm_available mem;
     mem_used := vm_used mem;
     mem_percent := vm_percent mem;
     mem_total_gb := to_gb (vm_total mem);
     mem_used_gb := to_gb (vm_used mem);
     mem_available_gb := to_gb (vm_available mem) |}.

(** [psutil.disk_usage('/')]. *)
Record sdiskusage := mksdiskusage {
  du_total : Z;
  du_used : Z;
  du_free : Z;
  du_percent : Z
}.

(** The dictionary of [get_disk_usage]. *)
Record DiskUsage := mkDiskUsage {
  disk_total : Z;
  disk_used : Z;
  disk_free : Z;
  disk_percent : Z;
  disk_total_gb : Z;
  disk_used_gb : Z;
  disk_free_gb : Z
}.

(** [SystemMonitor.get_disk_usage]. *)
Definition get_disk_usage (disk : sdiskusage) : DiskUsage :=
  {| disk_total := du_total disk;
     disk_used := du_used disk;
     disk_free := du_free disk;
     disk_percent := du_percent disk;
     disk_total_gb := to_gb (du_total disk);
     disk_used_gb := to_gb (du_used disk);
     disk_free_gb := to_gb (du_free disk) |}.

(** What reading [/sys/class/thermal/thermal_zone0/temp] gives: the file
    cannot be opened, its content is not a number, or it is one.  The
    arithmetic on the number is floating point; [SensorReads t] carries its
    result [round(float(text) / 1000.0, 1)], in tenths of a degree. *)
Inductive thermal_zone :=
| SensorAbsent
| SensorGarbled
| SensorReads (tenths : Z).

(** [SystemMonitor.get_temperature], in tenths of a degree: the handler
    returns [0.0]. *)
Definition get_temperature (zone : thermal_zone) : Z :=
  match zone with
  | SensorReads tenths => tenths
  | SensorGarbled => 0
  | SensorAbsent => 0
  end.

(** [psutil.net_io_counters()]. *)
Record snetio := mksnetio {
  io_bytes_sent : Z;
  io_bytes_recv : Z;
  io_packets_sent : Z;
  io_packets_recv : Z
}.

(** The dictionary of [get_network_stats]. *)
Record NetworkStats := mkNetworkStats {
  bytes_sent : Z;
  bytes_recv : Z;
  packets_sent : Z;
  packets_recv : Z;
  mb_sent : Z;
  mb_recv : Z
}.

(** [SystemMonitor.get_network_stats]. *)
Definition get_network_stats (net_io : snetio) : NetworkStats :=
  {| bytes_sent := io_bytes_sent net_io;
     bytes_recv := io_bytes_recv net_io;
     packets_sent := io_packets_sent net_io;
     packets_recv := io_packets_recv net_io;
     mb_sent := to_mb (io_bytes_sent net_io);
     mb_recv := to_mb (io_bytes_recv net_io) |}.

(** The readings of the host at one moment. *)
Record Host := mkHost {
  virtual_memory : svmem;
  disk_usage : sdiskusage;
  thermal : thermal_zone;
  net_io_counters : snetio
}.

(** The entries of [get_all_stats] that are computed by the module; the
    [cpu] and [uptime] entries forward floating-point readings. *)
Record AllStats := mkAllStats {
  memory : MemoryUsage;
  disk : DiskUsage;
  temperature : Z;
  network : NetworkStats
}.

(** [SystemMonitor.get_all_stats]. *)
Definition get_all_stats (h : Host) : AllStats :=
  {| memory := get_memory_usage (virtual_memory h);
     disk := get_disk_usage (disk_usage h);
     temperature := get_temperature (thermal h);
     network := get_network_stats (net_io_counters h) |}.

(** *** The module and its monitoring threads *)

(** [self.thread] is [None] or the last thread created, named by a number. *)
Record SystemModule := mkSystemModule {
  update_interval : Z;
  running : bool;
  thread : option nat
}.

(** The module together with what it acts on: the threads that run
    [_monitor_loop] and have not left it, those of them that have passed
    the test of [self.running] and have not emitted yet, the number of
    threads created so far, and the [system_stats_update] events emitted so
    far, oldest first. *)
Record world := mkWorld {
  module : SystemModule;
  live : list nat;
  inside : list nat;
  created : nat;
  emitted : list AllStats
}.

(** [SystemModule(update_interval=...)], before any thread. *)
Definition init (update_interval : Z) : world :=
  mkWorld (mkSystemModule update_interval false None) [] [] 0 [].

(** [SystemModule.start_monitoring]. *)
Definition start_monitoring (w : world) : world :=
  if running (module w) then w
  else
    let t := created w in
    mkWorld (mkSystemModule (update_interval (module w)) true (Some t))
      (t :: live w) (inside w) (S t) (emitted w).

(** The handler of [system_stats_start]. *)
Definition handle_stats_start (w : world) : world :=
  if negb (running (module w)) then start_monitoring w else w.

(** What the body of the loop does in one iteration: it reads the host and
    emits, or one of its calls raises. *)
Inductive body :=
| BodyReads (h : Host)
| BodyRaises.

(** The test [while self.running] by thread [t]: the thread goes into the
    body, or leaves the loop.  A thread that has left the loop, or that is
    in the body, tests nothing. *)
Definition test_step (t : nat) (w : world) : world :=
  if negb (bool_decide (t ∈ live w)) || bool_decide (t ∈ inside w) then w
  else if running (module w) then
    mkWorld (module w) (live w) (t :: inside w) (created w) (emitted w)
  else
    mkWorld (module w) (filter (fun u => u <> t) (live w)) (inside w)
      (created w) (emitted w).

(** The body of the loop by thread [t], which has passed the test: the
    statistics are emitted and the thread sleeps, or a call raises and the
    thread leaves the loop.  The flag is not looked at. *)
Definition body_step (t : nat) (b : body) (w : world) : world :=
  if bool_decide (t ∈ live w) && bool_decide (t ∈ inside w) then
    match b with
    | BodyReads h =>
        mkWorld (module w) (live w) (filter (fun u => u <> t) (inside w))
          (created w) (emitted w ++ [get_all_stats h])
    | BodyRaises =>
        mkWorld (module w) (filter (fun u => u <> t) (live w))
          (filter (fun u => u <> t) (inside w)) (created w) (emitted w)
    end
  else w.

(** One iteration of [_monitor_loop] by thread [t] with nothing in
    between: the test of [self.running] (unless the thread is in the body
    already) and, when it holds, the body up to the end of the sleep. *)
Definition monitor_step (t : nat) (b : body) (w : world) : world :=
  body_step t b (test_step t w).

(** [SystemModule.stop_monitoring]: the flag is cleared and [self.thread],
    and no other thread, is joined.  [joined] tells whether this thread left
    its loop within the five seconds of [join(timeout=5)]; when it did not
    (it sleeps for [update_interval] seconds, or is held in the body) the
    call returns all the same and the thread stays where it is.  A thread
    that emits during the join and then leaves is the thread that ends its
    body before the call; a thread in the body that is seen to leave
    without it has left on an exception.  [self.thread] keeps the thread. *)
Definition stop_monitoring (joined : bool) (w : world) : world :=
  let m := mkSystemModule (update_interval (module w)) false (thread (module w)) in
  match thread (module w) with
  | Some t =>
      if joined then
        mkWorld m (filter (fun u => u <> t) (live w))
          (filter (fun u => u <> t) (inside w)) (created w) (emitted w)
      else mkWorld m (live w) (inside w) (created w) (emitted w)
  | None => mkWorld m (live w) (inside w) (created w) (emitted w)
  end.

(** The handler of [system_stats_stop]. *)
Definition handle_stats_stop (joined : bool) (w : world) : world :=
  stop_monitoring joined w.

(** What can happen to the module, one at a time: the calls and the
    events, and the steps of the threads, an iteration at once ([Iterate])
    or its test ([Enter]) and its body ([Finish]) apart. *)
Inductive action :=
| Start
| StartEvent
| Stop (joined : bool)
| StopEvent (joined : bool)
| Iterate (t : nat) (b : body)
| Enter (t : nat)
| Finish (t : nat) (b : body).

Definition step (a : action) (w : world) : world :=
  match a with
  | Start => start_monitoring w
  | StartEvent => handle_stats_start w
  | Stop joined => stop_monitoring joined w
  | StopEvent joined => handle_stats_stop joined w
  | Iterate t b => monitor_step t b w
  | Enter t => test_step t w
  | Finish t b => body_step t b w
  end.

(** The world after a sequence of actions, the first of the list first. *)
Definition run (tr : list action) (w : world) : world :=
  fold_left (fun w a => step a w) tr w.

(** The actions that can set [self.running]. *)
Definition starts (a : action) : bool :=
  match a with
  | Start | StartEvent => true
  | _ => false
  end.

(** The actions whose [join], if any, sees the thread leave. *)
Definition joins (a : action) : bool :=
  match a with
  | Stop joined | StopEvent joined => joined
  | _ => true
  end.

End System.

(** ** The loader of the configuration ([main.py]) *)

Module Main.

(** The values of [json.load]. *)
Inductive json :=
| JNull
| JBool (b : bool)
| JNum (z : Z)
| JStr (s : string)
| JArr (items : list json)
| JObj (fields : list (string * json)).

(** [d[k]] for the fields of a dictionary. *)
Fixpoint lookup_field (k : string) (fields : list (string * json))
  : option json :=
  match fields with
  | [] => None
  | (k', v) :: rest => if String.eqb k k' then Some v else lookup_field k rest
  end.

(** [d.get(k, default)]; [None] when [d] is not a dictionary and the call
    raises. *)
Definition get (d : json) (k : string) (default : json) : option json :=
  match d with
  | JObj fields =>
      match lookup_field k fields with
      | Some v => Some v
      | None => Some default
      end
  | _ => None
  end.

(** Python's truth value. *)
Definition truthy (v : json) : bool :=
  match v with
  | JNull => false
  | JBool b => b
  | JNum z => negb (z =? 0)
  | JStr s => negb (String.eqb s "")
  | JArr items => match items with [] => false | _ => true end
  | JObj fields => match fields with [] => false | _ => true end
  end.

(** What a path of the disk leads to: nothing, a directory, or a file, whose
    content parses as JSON or does not. *)
Inductive entry :=
| NoEntry
| DirEntry
| FileEntry (content : option json).

(** The surroundings of the process: the disk, [Path.home()] and the
    directory three levels above [main.py]. *)
Record Env := mkEnv {
  disk : string -> entry;
  home : string;
  project_root : string
}.

(** [Path(p).exists()]. *)
Definition path_exists (env : Env) (p : string) : bool :=
  match disk env p with
  | NoEntry => false
  | _ => true
  end.

(** The default locations, in the order they are tried. *)
Definition possible_paths (env : Env) : list string :=
  [ "/etc/pi-dashboard/config.json";
    (home env ++ "/.config/pi-dashboard/config.json")%string;
    (project_root env ++ "/config/config.json")%string;
    (project_root env ++ "/config/default.json")%string ].

(** [PiDashboard._get_default_config]. *)
Definition _get_default_config : json :=
  JObj
    [ ("display",
        JObj [ ("width", JNum 800); ("height", JNum 480);
               ("fullscreen", JBool true); ("hide_cursor", JBool true);
               ("orientation", JNum 0) ]);
      ("server",
        JObj [ ("host", JStr "0.0.0.0"); ("port", JNum 5000);
               ("debug", JBool false) ]);
      ("modules",
        JObj [ ("camera", JObj [ ("enabled", JBool true) ]);
               ("media", JObj [ ("enabled", JBool true) ]);
               ("system", JObj [ ("enabled", JBool true) ]);
               ("weather", JObj [ ("enabled", JBool false) ]) ]);
      ("power",
        JObj [ ("shutdown_delay", JNum 30);
               ("boot_optimization", JBool true) ]) ].

(** The result of a call that can raise. *)
Inductive result (A : Type) :=
| Returns (a : A)
| Raises.
Arguments Returns {A} a.
Arguments Raises {A}.

(** The loop over the default locations: the first that exists. *)
Definition first_existing (env : Env) (paths : list string) : option string :=
  find (path_exists env) paths.

(** [PiDashboard._load_config]. *)
Definition _load_config (env : Env) (config_path : option string)
  : result json :=
  let config_path :=
    match config_path with
    | None => first_existing env (possible_paths env)
    | Some p => Some p
    end in
  match config_path with
  | Some p =>
      if negb (String.eqb p "") && path_exists env p then
        match disk env p with
        | FileEntry (Some config) => Returns config
        | _ => Raises
        end
      else Returns _get_default_config
  | None => Returns _get_default_config
  end.

(** The test of [_init_modules] for one module:
    [config.get('modules', {}).get(name, {}).get('enabled', True)]. *)
Definition module_enabled (config : json) (name : string) : option bool :=
  modules ← get config "modules" (JObj []);
  m ← get modules name (JObj []);
  truthy <$> get m "enabled" (JBool true).

(** The settings that [run] reads: [config.get('server', {})] and then
    [host], [port] and [debug] with their defaults. *)
Definition server_setting (config : json) (key : string) (default : json)
  : option json :=
  server_config ← get config "server" (JObj []);
  get server_config key default.

(** Every path the loader can look at: the path given, if one is, and the
    default locations. *)
Definition looked_up (env : Env) (config_path : option string) : list string :=
  match config_path with
  | Some p => p :: possible_paths env
  | None => possible_paths env
  end.

End Main.

(** ** The media module ([media/player.py], below [scan]) *)

Module Player.

(** [MediaLibrary.get_file]: the first record with the path. *)
Definition get_file (self : Media.MediaLibrary) (path : string)
  : option Media.MediaFile :=
  List.find (fun media => String.eqb (Media.path media) path)
    (Media.media_files self).

(** The [media_status] events. *)
Inductive media_status :=
| Playing (media : Media.MediaFile)
| Paused
| Stopped.

Record MediaModule := mkMediaModule {
  library_path : string;
  library : Media.MediaLibrary;
  current_media : option Media.MediaFile
}.

(** The handler of [media_play] for [data.get('path')], which is [None]
    when the key is missing: the module after it and the events emitted.
    A record is a dictionary with eight keys, hence true. *)
Definition handle_play (self : MediaModule) (path : option string)
  : MediaModule * list media_status :=
  match path with
  | Some p =>
      match get_file (library self) p with
      | Some media =>
          (mkMediaModule (library_path self) (library self) (Some media),
           [Playing media])
      | None => (self, [])
      end
  | None => (self, [])
  end.

(** The handler of [media_pause]. *)
Definition handle_pause (self : MediaModule) : MediaModule * list media_status :=
  (self, [Paused]).

(** The handler of [media_stop]. *)
Definition handle_stop (self : MediaModule) : MediaModule * list media_status :=
  (mkMediaModule (library_path self) (library self) None, [Stopped]).

(** The route [/media/api/scan]: the module after it, and the [count] and
    [files] of the answer. *)
Definition media_scan (lower : string -> string) (fs : Media.filesystem)
  (self : MediaModule) : MediaModule * (nat * list Media.MediaFile) :=
  let (lib, files) := Media.scan lower fs (library self) in
  (mkMediaModule (library_path self) lib (current_media self),
   (length files, files)).

(** The dictionary of [get_library_stats]. *)
Record LibraryStats := mkLibraryStats {
  total_files : nat;
  video_files : nat;
  audio_files : nat;
  stats_library_path : string
}.

(** [MediaModule.get_library_stats]. *)
Definition get_library_stats (self : MediaModule) : LibraryStats :=
  let videos := Media.get_files (library self) (Some "video") in
  let audio := Media.get_files (library self) (Some "audio") in
  {| total_files := length (Media.media_files (library self));
     video_files := length videos;
     audio_files := length audio;
     stats_library_path := library_path self |}.

End Player.

(** ** The capture loop and the rest of the camera module *)

Module Feeds.

(** [CameraFeed._capture_loop], run on the results that the successive
    [self.camera.read()] give, as long as there are some. *)
Fixpoint _capture_loop (reads : list Camera.read_result)
  (self : Camera.CameraFeed) : Camera.CameraFeed :=
  match reads with
  | [] => self
  | r :: rest =>
      let (self', goes_on) := Camera.capture_step r self in
      if goes_on then _capture_loop rest self' else self'
  end.

(** [CameraModule.stop_all]: every feed is stopped, and the dictionary
    cleared. *)
Definition stop_all (self : Camera.CameraModule) : Camera.CameraModule :=
  Camera.mkCameraModule ∅.

End Feeds.

(** ** The rest of the system monitor *)

Module Monitor.

(** [count or 1] for what [psutil.cpu_count] returns, [None] or a number. *)
Definition or_one (count : option Z) : Z :=
  match count with
  | Some n => if n =? 0 then 1 else n
  | None => 1
  end.

(** The dictionary of [get_cpu_count]. *)
Record CpuCount := mkCpuCount {
  physical : Z;
  logical : Z
}.

(** [SystemMonitor.get_cpu_count], from [psutil.cpu_count(logical=False)]
    and [psutil.cpu_count(logical=True)]. *)
Definition get_cpu_count (cores cpus : option Z) : CpuCount :=
  {| physical := or_one cores; logical := or_one cpus |}.

(** The dictionary of [get_uptime], but for its text. *)
Record Uptime := mkUptime {
  boot_time : Z;
  uptime_seconds : Z;
  days : Z;
  hours : Z;
  minutes : Z
}.

(** [SystemMonitor.get_uptime].  The two times are floating-point numbers
    of seconds; they are given here in ticks of [1 / hz] second (two binary
    floating-point numbers are multiples of a common power of two), and so
    is [uptime_seconds].  The floor divisions and remainders of the source
    are exact on such numbers. *)
Definition get_uptime (hz boot now : Z) : Uptime :=
  let uptime := now - boot in
  {| boot_time := boot;
     uptime_seconds := uptime;
     days := uptime / (86400 * hz);
     hours := (uptime mod (86400 * hz)) / (3600 * hz);
     minutes := (uptime mod (3600 * hz)) / (60 * hz) |}.

End Monitor.

(** ** The rest of the dashboard ([main.py]) *)

Module Dashboard.

(** A module that [_init_modules] creates, with the argument it is given:
    the library path of the media module, the interval of the system
    module. *)
Inductive created :=
| CreatedCamera
| CreatedMedia (library_path : Main.json)
| CreatedSystem (update_interval : Main.json).

(** The key of [self.modules] under which a module is stored. *)
Definition key_of (m : created) : string :=
  match m with
  | CreatedCamera => "camera"
  | CreatedMedia _ => "media"
  | CreatedSystem _ => "system"
  end.

(** [config.get('modules', {}).get(name, {}).get(key, default)]. *)
Definition module_setting (config : Main.json) (name key : string)
  (default : Main.json) : option Main.json :=
  modules ← Main.get config "modules" (Main.JObj []);
  m ← Main.get modules name (Main.JObj []);
  Main.get m key default.

(** The module [m] when its test [enabled] holds. *)
Definition created_if (enabled : bool) (m : created) : list created :=
  if enabled then [m] else [].

(** [PiDashboard._init_modules]: the modules created, in the order they
    are; [None] when a [get] is sent to something that is no dictionary and
    raises. *)
Definition _init_modules (config : Main.json) : option (list created) :=
  camera ← Main.module_enabled config "camera";
  media ← Main.module_enabled config "media";
  media_path ←
    (if media
     then module_setting config "media" "library_path" (Main.JStr "~/media")
     else Some Main.JNull);
  system ← Main.module_enabled config "system";
  update_interval ←
    (if system
     then module_setting config "system" "update_interval" (Main.JNum 2)
     else Some Main.JNull);
  Some (created_if camera CreatedCamera
        ++ created_if media (CreatedMedia media_path)
        ++ created_if system (CreatedSystem update_interval)).

(** The test of [load_module]: whether it goes on to load the module
    ([true]) or reports it disabled and returns ([false]). *)
Definition load_module (config : Main.json) (module_name : string)
  : option bool :=
  Main.truthy <$> module_setting config module_name "enabled" (Main.JBool false).

(** The [host], [port] and [debug] that [run] hands to the server. *)
Definition run_settings (config : Main.json)
  : option (Main.json * Main.json * Main.json) :=
  host ← Main.server_setting config "host" (Main.JStr "0.0.0.0");
  port ← Main.server_setting config "port" (Main.JNum 5000);
  debug ← Main.server_setting config "debug" (Main.JBool false);
  Some (host, port, debug).

(** [PiDashboard(config_path)], as far as the configuration decides it: the
    configuration loaded and the modules created. *)
Definition PiDashboard (env : Main.Env) (config_path : option string)
  : Main.result (Main.json * list created) :=
  match Main._load_config env config_path with
  | Main.Returns config =>
      match Main.get config "secret_key" (Main.JStr "dev-secret-key") with
      | Some _ =>
          match _init_modules config with
          | Some modules => Main.Returns (config, modules)
          | None => Main.Raises
          end
      | None => Main.Raises
      end
  | Main.Raises => Main.Raises
  end.

End Dashboard.

(** * What the properties are stated with *)




(** The entries of a traversal that are media files. *)
Definition media_entry (lower : string -> string) (e : list string * Media.node)
  : bool :=
  match e.2 with
  | Media.File fname _ => Media.is_media_name lower fname
  | _ => false
  end.


(** [h] hundredths is a nearest hundredth to [b / 1024 ** 2]. *)
Definition nearest_mb (b h : Z) : Prop :=
  2 * Z.abs (100 * b - h * 1024 ^ 2) <= 1024 ^ 2.

(** A value handed to a caller, for the operations that answer for a
    missing resource. *)
Inductive returned :=
| RetNone
| RetList (records : list Media.MediaFile)
| RetBytes (jpeg : list Z)
| RetFloat (tenths : Z).

(** [None] or an empty collection. *)
Definition absent (v : returned) : bool :=
  match v with
  | RetNone => true
  | RetList [] => true
  | _ => false
  end.

Definition scan_returns (lower : string -> string) (fs : Media.filesystem)
  (self : Media.MediaLibrary) : returned :=
  RetList (Media.scan lower fs self).2.

Definition get_frame_jpeg_returns (cv2 : Camera.Cv2) (self : Camera.CameraFeed)
  : returned :=
  match Camera.get_frame_jpeg cv2 self with
  | Some jpeg => RetBytes jpeg
  | None => RetNone
  end.

Definition get_temperature_returns (zone : System.thermal_zone) : returned :=
  RetFloat (System.get_temperature zone).

(** At most one thread runs the loop, and it is the one the module holds. *)
Definition single_loop (w : System.world) : Prop :=
  System.live w = []
  \/ (System.running (System.module w) = true
      /\ exists t, System.thread (System.module w) = Some t
                   /\ System.live w = [t]).

(** The actions that clear [self.running]. *)
Definition stops (a : System.action) : bool :=
  match a with
  | System.Stop _ | System.StopEvent _ => true
  | _ => false
  end.

(** ** Sample values *)

Definition demo_fs : Media.filesystem := fun _ =>
  Media.Directory
    [ Media.File "b.MP4" (Some (10, 1)); Media.File "notes.txt" (Some (3, 2));
      Media.Dir "albums.mp3"
        [ Media.File "Alpha.ogg" (Some (7, 3)); Media.File ".mp3" (Some (1, 4)) ];
      Media.File "a.mkv" (Some (5, 5)) ].

(** A directory whose last entry cannot be looked at. *)
Definition faulty_fs : Media.filesystem := fun _ =>
  Media.Directory
    [ Media.File "b.mp4" (Some (10, 1)); Media.File "a.mp4" (Some (5, 5));
      Media.Unreadable "locked" ].


Definition demo_library : Media.MediaLibrary :=
  Media.init (PathLib.mkPath false ["~"; "media"]).

Definition demo_record : Media.MediaFile :=
  Media.mkMediaFile "a" "a.mkv" "~/media/a.mkv" "a.mkv" "video" ".mkv" 5 5.

Definition demo_cv2 : Camera.Cv2 :=
  Camera.mkCv2 true
    (fun id => if id =? 0 then Camera.CaptureOpened else Camera.CaptureClosed)
    (fun _ => true)
    (fun fr => Camera.Encoded true (255 :: 216 :: fr)) (fun _ => "/9j/").

Definition demo_host : System.Host :=
  System.mkHost (System.mksvmem 4000000000 3000000000 1000000000 250)
    (System.mksdiskusage 32000000000 8000000000 24000000000 250)
    System.SensorAbsent
    (System.mksnetio 1048576 2097152 10 20).

Definition demo_env : Main.Env :=
  Main.mkEnv (fun _ => Main.NoEntry) "/home/pi" "/opt/pi-dashboard".

(** * Properties *)

(** ** Facts on the order of strings and on the sort *)



Section Sorting.
Variable key : Media.MediaFile -> string.

Lemma insert_by_perm x l : Media.insert_by key x l ≡ₚ x :: l.
Proof.
  induction l as [|y l IH]; simpl; [done|].
  destruct (String.leb (key x) (key y)); [done|].
  rewrite IH. apply perm_swap.
Qed.

Lemma sort_by_perm l : Media.sort_by key l ≡ₚ l.
Proof.
  induction l as [|x l IH]; simpl; [done|].
  by rewrite insert_by_perm, IH.
Qed.



End Sorting.

(** ** Facts on the traversal *)


Lemma supported_disjoint : Media.SUPPORTED_VIDEO ## Media.SUPPORTED_AUDIO.
Proof. apply (bool_decide_unpack _). vm_compute. exact I. Qed.

Section Traversal.
Variable lower : string -> string.

Lemma is_media_name_spec fname :
  Media.is_media_name lower fname
  = bool_decide (lower (PathLib.suffix fname) ∈ Media.SUPPORTED_VIDEO)
    || bool_decide (lower (PathLib.suffix fname) ∈ Media.SUPPORTED_AUDIO).
Proof.
  unfold Media.is_media_name.
  apply eq_true_iff_eq.
  rewrite orb_true_iff, !bool_decide_eq_true, elem_of_union. done.
Qed.

(** What the body of the loop does for one path, by the kind of the
    entry. *)
Lemma scan_step_cases root rel n :
  match Media.scan_step lower root (rel, n) with
  | Media.Appends r =>
      exists fname st_size st_mtime,
        n = Media.File fname (Some (st_size, st_mtime))
        /\ Media.is_media_name lower fname = true
        /\ r = Media.mkMediaFile (PathLib.stem fname) fname
                 (PathLib.str (PathLib.joinpath root rel))
                 (PathLib.str (PathLib.mkPath false rel))
                 (if bool_decide
                       (lower (PathLib.suffix fname) ∈ Media.SUPPORTED_VIDEO)
                  then "video" else "audio")
                 (lower (PathLib.suffix fname)) st_size st_mtime
  | Media.Skips => media_entry lower (rel, n) = false
  | Media.Raises => True
  end.
Proof.
  destruct n as [fname [[sz mt]|]|name cs|name|name]; simpl; try done;
    rewrite <- is_media_name_spec;
    destruct (Media.is_media_name lower fname) eqn:Hm; try done.
  by exists fname, sz, mt.
Qed.

(** What the body of the loop appends: nothing but for a media file, and
    for one the record of its name, paths, type, size and time. *)
Lemma scan_entry_Some root rel n r :
  Media.scan_entry lower root (rel, n) = Some r ->
  exists fname st_size st_mtime,
    n = Media.File fname (Some (st_size, st_mtime))
    /\ Media.is_media_name lower fname = true
    /\ r = Media.mkMediaFile (PathLib.stem fname) fname
             (PathLib.str (PathLib.joinpath root rel))
             (PathLib.str (PathLib.mkPath false rel))
             (if bool_decide (lower (PathLib.suffix fname) ∈ Media.SUPPORTED_VIDEO)
              then "video" else "audio")
             (lower (PathLib.suffix fname)) st_size st_mtime.
Proof.
  unfold Media.scan_entry.
  pose proof (scan_step_cases root rel n) as Hc.
  destruct (Media.scan_step lower root (rel, n)); [|done..].
  by intros [= <-].
Qed.

Lemma scan_try_cons root e es :
  Media.scan_try lower root (e :: es)
  = match Media.scan_step lower root e with
    | Media.Appends media =>
        (media :: (Media.scan_try lower root es).1,
         (Media.scan_try lower root es).2)
    | Media.Skips => Media.scan_try lower root es
    | Media.Raises => ([], true)
    end.
Proof.
  simpl. destruct (Media.scan_step lower root e); [|done..].
  by destruct (Media.scan_try lower root es).
Qed.

(** Every record of the loop is the record of an entry of the traversal. *)
Lemma scan_loop_elem root es r :
  r ∈ Media.scan_loop lower root es ->
  exists e, e ∈ es /\ Media.scan_entry lower root e = Some r.
Proof.
  unfold Media.scan_loop.
  induction es as [|e es IH]; [by intros ?%elem_of_nil|].
  rewrite scan_try_cons.
  destruct (Media.scan_step lower root e) as [media| |] eqn:Hstep; simpl.
  - intros [->|Hr]%elem_of_cons.
    + exists e. split; [apply list_elem_of_here|].
      unfold Media.scan_entry. by rewrite Hstep.
    + destruct (IH Hr) as (e' & He' & Hr').
      exists e'. split; [by apply list_elem_of_further|done].
  - intros Hr. destruct (IH Hr) as (e' & He' & Hr').
    exists e'. split; [by apply list_elem_of_further|done].
  - by intros ?%elem_of_nil.
Qed.






(** The list that [scan] returns, and stores. *)
Lemma scan_result fs self :
  (Media.scan lower fs self).2
  = if Media.traversal_raises lower fs (Media.library_path self)
    then Media.scan_loop lower (Media.library_path self)
           (Media.rglob fs (Media.library_path self))
    else Media.sort_by (Media.sort_key lower)
           (Media.scan_loop lower (Media.library_path self)
              (Media.rglob fs (Media.library_path self))).
Proof.
  unfold Media.scan, Media.path_exists, Media.traversal_raises,
    Media.scan_loop, Media.rglob.
  simpl. destruct (fs (Media.library_path self)); simpl; try done.
  by destruct (Media.scan_try lower _ _) as [appended []].
Qed.

Lemma scan_stored fs self :
  Media.media_files (Media.scan lower fs self).1 = (Media.scan lower fs self).2.
Proof.
  unfold Media.scan. simpl.
  destruct (negb _); [done|].
  by destruct (Media.scan_try lower _ _) as [appended []].
Qed.

Lemma scan_perm fs self :
  (Media.scan lower fs self).2
  ≡ₚ Media.scan_loop lower (Media.library_path self)
       (Media.rglob fs (Media.library_path self)).
Proof.
  rewrite scan_result.
  destruct (Media.traversal_raises lower fs _); [done|apply sort_by_perm].
Qed.

(** Every record of the list returned comes from a file of the traversal. *)
Lemma scan_elem fs self r :
  r ∈ (Media.scan lower fs self).2 ->
  exists e, e ∈ Media.rglob fs (Media.library_path self)
            /\ Media.scan_entry lower (Media.library_path self) e = Some r.
Proof. rewrite scan_perm. apply scan_loop_elem. Qed.

End Traversal.

Lemma isabs_str_absolute p :
  PathLib.is_absolute p = true -> Str.isabs (PathLib.str p) = true.
Proof. unfold PathLib.str. by intros ->. Qed.

Example suffix_upper :
  Str.ascii_lower (PathLib.suffix "Clip.One.MP4") = ".mp4".
Proof. reflexivity. Qed.

Example suffix_hidden : PathLib.suffix ".mp4" = "".
Proof. reflexivity. Qed.

Example stem_two_dots : PathLib.stem "Clip.One.MP4" = "Clip.One".
Proof. reflexivity. Qed.

Example demo_scan :
  map Media.relative_path (Media.scan Str.ascii_lower demo_fs demo_library).2
  = ["a.mkv"; "albums.mp3/Alpha.ogg"; "b.MP4"].
Proof. vm_compute. reflexivity. Qed.

Example faulty_scan :
  map Media.relative_path (Media.scan Str.ascii_lower faulty_fs demo_library).2
  = ["b.mp4"; "a.mp4"].
Proof. vm_compute. reflexivity. Qed.

(** ** The media library *)




(** C2, as the code has it: every record of [scan] is the record of a file
    of the traversal and carries its file name, its path (the library root
    joined with the relative path, absolute when the root is), its path
    relative to the root, a type that is ["video"] exactly when the
    lower-cased extension is a supported video extension and ["audio"]
    exactly when it is a supported audio extension, its size and its
    modification time. *)
Theorem scan_record_fields (lower : string -> string) (fs : Media.filesystem)
  (self : Media.MediaLibrary) (r : Media.MediaFile) :
  r ∈ (Media.scan lower fs self).2 ->
  exists rel fname st_size st_mtime,
    (rel, Media.File fname (Some (st_size, st_mtime)))
      ∈ Media.rglob fs (Media.library_path self)
    /\ Media.filename r = fname
    /\ Media.path r
       = PathLib.str (PathLib.joinpath (Media.library_path self) rel)
    /\ (PathLib.is_absolute (Media.library_path self) = true ->
        Str.isabs (Media.path r) = true)
    /\ Media.relative_path r = PathLib.str (PathLib.mkPath false rel)
    /\ (Media.type r = "video"
        <-> lower (PathLib.suffix fname) ∈ Media.SUPPORTED_VIDEO)
    /\ (Media.type r = "audio"
        <-> lower (PathLib.suffix fname) ∈ Media.SUPPORTED_AUDIO)
    /\ Media.size r = st_size
    /\ Media.modified r = st_mtime.
Proof.
  intros Hr.
  apply scan_elem in Hr as ([rel n] & He & Hr).
  apply scan_entry_Some in Hr as (fname & sz & mt & -> & Hm & ->).
  exists rel, fname, sz, mt. cbn.
  repeat split; try done.
  - intros Habs. by apply isabs_str_absolute.
  - by case_bool_decide.
  - by case_bool_decide.
  - case_bool_decide as Hv; [done|]. intros _.
    rewrite is_media_name_spec, orb_true_iff, !bool_decide_eq_true in Hm.
    tauto.
  - case_bool_decide as Hv; [|done].
    intros Ha. by destruct (supported_disjoint _ Hv Ha).
Qed.

Lemma scan_record_fields_witness :
  demo_record ∈ (Media.scan Str.ascii_lower demo_fs demo_library).2
  /\ exists rel fname,
       Media.filename demo_record = fname
       /\ Media.relative_path demo_record = PathLib.str (PathLib.mkPath false rel).
Proof.
  assert (Hr : demo_record ∈ (Media.scan Str.ascii_lower demo_fs demo_library).2)
    by (vm_compute; apply list_elem_of_here).
  split; [exact Hr|].
  destruct (scan_record_fields Str.ascii_lower demo_fs demo_library demo_record Hr)
    as (rel & fname & sz & mt & _ & Hf & _ & _ & Hrel & _).
  exists rel, fname. split; assumption.
Defined.

(** C2, as stated, fails: the path of a record is absolute only when the
    root of the library is; with the root [~/media] that [main.py] passes by
    default the paths are relative. *)
Lemma scan_path_not_absolute :
  ~ (forall lower fs self r,
       r ∈ (Media.scan lower fs self).2 -> Str.isabs (Media.path r) = true).
Proof.
  intros H.
  assert (Hr : demo_record ∈ (Media.scan Str.ascii_lower demo_fs demo_library).2)
    by (vm_compute; apply list_elem_of_here).
  specialize (H Str.ascii_lower demo_fs demo_library demo_record Hr).
  discriminate H.
Qed.

(** C9: whatever the library stored before, after [scan] it stores the list
    returned, which is the one a fresh library would get: the records of the
    files of the current traversal, each of them once, and nothing else. *)
Theorem scan_replaces_collection (lower : string -> string)
  (fs : Media.filesystem) (root : PathLib.Path)
  (old : list Media.MediaFile) :
  Media.scan lower fs (Media.mkMediaLibrary root old)
  = Media.scan lower fs (Media.init root)
  /\ Media.media_files (Media.scan lower fs (Media.mkMediaLibrary root old)).1
     = (Media.scan lower fs (Media.mkMediaLibrary root old)).2
  /\ Media.media_files (Media.scan lower fs (Media.mkMediaLibrary root old)).1
     ≡ₚ Media.scan_loop lower root (Media.rglob fs root)
  /\ (forall r,
        r ∈ Media.media_files
              (Media.scan lower fs (Media.mkMediaLibrary root old)).1 ->
        exists e, e ∈ Media.rglob fs root
                  /\ Media.scan_entry lower root e = Some r).
Proof.
  split; [reflexivity|]. split; [apply scan_stored|]. split.
  - rewrite scan_stored.
    apply (scan_perm lower fs (Media.mkMediaLibrary root old)).
  - intros r. rewrite scan_stored.
    apply (scan_elem lower fs (Media.mkMediaLibrary root old)).
Qed.

(** ** The camera feeds *)

Lemma get_frame_without_frame cv2 self :
  Camera.frame self = None ->
  Camera.get_frame_jpeg cv2 self = None
  /\ Camera.get_frame_base64 cv2 self = None.
Proof.
  intros Hframe.
  assert (Hjpeg : Camera.get_frame_jpeg cv2 self = None)
    by (unfold Camera.get_frame_jpeg; by rewrite Hframe).
  split; [exact Hjpeg|].
  unfold Camera.get_frame_base64. by rewrite Hjpeg.
Qed.

(** C4: a feed whose frame slot is still [None] gives [None] both as JPEG
    and as base64. *)
Theorem no_frame_no_jpeg (cv2 : Camera.Cv2) (self : Camera.CameraFeed) :
  Camera.frame self = None ->
  Camera.get_frame_jpeg cv2 self = None
  /\ Camera.get_frame_base64 cv2 self = None.
Proof. apply get_frame_without_frame. Qed.

Lemma no_frame_no_jpeg_witness :
  Camera.frame (Camera.init 0 "Camera") = None
  /\ Camera.get_frame_jpeg demo_cv2 (Camera.init 0 "Camera") = None
  /\ Camera.get_frame_base64 demo_cv2 (Camera.init 0 "Camera") = None.
Proof.
  split; [reflexivity|].
  apply (no_frame_no_jpeg demo_cv2 (Camera.init 0 "Camera")). reflexivity.
Defined.

(** A feed whose one start failed has no frame, whatever the reason of
    the failure; its running flag is set only if it is the start of the
    thread that failed. *)
Lemma failed_start_no_frame cv2 camera_id name :
  (Camera.start cv2 (Camera.init camera_id name)).1 = false ->
  Camera.frame (Camera.start cv2 (Camera.init camera_id name)).2 = None
  /\ (Camera.running (Camera.start cv2 (Camera.init camera_id name)).2 = true ->
      Camera.Thread_start cv2 camera_id = false).
Proof.
  unfold Camera.start. simpl.
  destruct (Camera.CV2_AVAILABLE cv2); simpl; [|done].
  by destruct (Camera.VideoCapture cv2 camera_id).
Qed.

(** C10: when the dictionary of feeds already has [camera_id],
    [add_camera] returns [True] and leaves the module as it is: the feed
    stored under [camera_id] is the one that was there, and a second call
    changes nothing either. *)
Theorem add_camera_existing (cv2 : Camera.Cv2) (self : Camera.CameraModule)
  (camera_id : Z) (name : string) (feed : Camera.CameraFeed) :
  Camera.feeds self !! camera_id = Some feed ->
  Camera.add_camera cv2 self camera_id name = (true, self)
  /\ Camera.feeds (Camera.add_camera cv2 self camera_id name).2 !! camera_id
     = Some feed
  /\ Camera.add_camera cv2 (Camera.add_camera cv2 self camera_id name).2
       camera_id name
     = Camera.add_camera cv2 self camera_id name.
Proof.
  intros Hfeed.
  assert (Hadd : Camera.add_camera cv2 self camera_id name = (true, self))
    by (unfold Camera.add_camera; by rewrite Hfeed).
  rewrite Hadd. simpl. by rewrite Hadd.
Qed.

Lemma add_camera_existing_witness :
  Camera.add_camera demo_cv2
    (Camera.mkCameraModule {[ 0 := Camera.init 0 "Front" ]}) 0 "Rear"
  = (true, Camera.mkCameraModule {[ 0 := Camera.init 0 "Front" ]}).
Proof.
  apply (add_camera_existing demo_cv2
           (Camera.mkCameraModule {[ 0 := Camera.init 0 "Front" ]}) 0 "Rear"
           (Camera.init 0 "Front")).
  apply lookup_singleton_eq.
Defined.

(** A first [add_camera] of an id stores the feed it started, and the
    second one keeps it. *)
Lemma add_camera_twice cv2 self camera_id name name' :
  (Camera.add_camera cv2 self camera_id name).1 = true ->
  Camera.add_camera cv2 (Camera.add_camera cv2 self camera_id name).2
    camera_id name'
  = (true, (Camera.add_camera cv2 self camera_id name).2).
Proof.
  unfold Camera.add_camera at 1 3 4.
  destruct (Camera.feeds self !! camera_id) as [feed|] eqn:Hfeed; simpl.
  - intros _. unfold Camera.add_camera. by rewrite Hfeed.
  - destruct (Camera.start cv2 (Camera.init camera_id name)) as [[] feed];
      simpl; [|done].
    intros _. unfold Camera.add_camera. simpl. by rewrite lookup_insert_eq.
Qed.

(** ** The system monitor *)

Lemma round_half_even_nearest n d :
  0 < d -> 2 * Z.abs (n - System.round_half_even n d * d) <= d.
Proof.
  intros Hd. unfold System.round_half_even.
  pose proof (Z.div_mod n d ltac:(lia)) as Hdm.
  pose proof (Z.mod_pos_bound n d Hd) as Hr.
  set (q := n / d) in *. set (r := n mod d) in *.
  destruct (Z.ltb_spec (2 * r) d); [lia|].
  destruct (Z.ltb_spec d (2 * r)); [lia|].
  destruct (Z.even q); lia.
Qed.

Lemma round_half_even_monotone n1 n2 d :
  0 < d -> n1 <= n2 ->
  System.round_half_even n1 d <= System.round_half_even n2 d.
Proof.
  intros Hd Hn.
  pose proof (round_half_even_nearest n1 d Hd) as H1.
  pose proof (round_half_even_nearest n2 d Hd) as H2.
  destruct (Z.eq_dec n1 n2) as [->|Hne]; [lia|].
  destruct (Z_le_gt_dec (System.round_half_even n1 d)
              (System.round_half_even n2 d)) as [Hle|Hgt]; [exact Hle|].
  exfalso.
  assert (Hstep : System.round_half_even n2 d * d + d
                  <= System.round_half_even n1 d * d) by nia.
  lia.
Qed.

Lemma round_half_even_exact k d :
  0 < d -> System.round_half_even (k * d) d = k.
Proof.
  intros Hd. unfold System.round_half_even.
  rewrite Z.div_mul, Z.mod_mul by lia.
  destruct (Z.ltb_spec (2 * 0) d); [done|lia].
Qed.

(** Below [2 ** 53] an integer is a binary64 number. *)
Lemma binary64_small n : n < 2 ^ 53 -> System.binary64 n = n.
Proof.
  intros Hn. unfold System.binary64.
  destruct (Z.ltb_spec n (2 ^ 53)); [done|lia].
Qed.

(** From [2 ** 53] on, rounding stays between the two powers of two that
    surround the integer. *)
Lemma binary64_large n :
  2 ^ 53 <= n ->
  2 ^ Z.log2 n <= System.binary64 n <= 2 ^ (Z.log2 n + 1).
Proof.
  intros Hn. unfold System.binary64.
  destruct (Z.ltb_spec n (2 ^ 53)) as [Hlt|_]; [lia|].
  assert (Hpos : 0 < n) by lia.
  assert (HL : 53 <= Z.log2 n) by (apply Z.log2_le_pow2; lia).
  destruct (Z.log2_spec n Hpos) as [Hlo Hhi].
  set (L := Z.log2 n) in *. set (e := L - 52).
  assert (He : 0 < 2 ^ e) by (apply Z.pow_pos_nonneg; lia).
  assert (HloE : 2 ^ L = 2 ^ 52 * 2 ^ e)
    by (rewrite <- Z.pow_add_r by lia; f_equal; lia).
  assert (HhiE : 2 ^ (L + 1) = 2 ^ 53 * 2 ^ e)
    by (rewrite <- Z.pow_add_r by lia; f_equal; lia).
  replace (Z.succ L) with (L + 1) in Hhi by lia.
  pose proof (round_half_even_monotone (2 ^ 52 * 2 ^ e) n (2 ^ e) He ltac:(lia))
    as Hm1.
  pose proof (round_half_even_monotone n (2 ^ 53 * 2 ^ e) (2 ^ e) He ltac:(lia))
    as Hm2.
  rewrite round_half_even_exact in Hm1, Hm2 by done.
  rewrite HloE, HhiE. split; nia.
Qed.

Lemma binary64_monotone n1 n2 :
  0 <= n1 <= n2 -> System.binary64 n1 <= System.binary64 n2.
Proof.
  intros [H0 Hn].
  destruct (Z_lt_le_dec n2 (2 ^ 53)) as [H2|H2].
  - rewrite !binary64_small by lia. done.
  - pose proof (binary64_large n2 H2) as [Hlo2 _].
    assert (HL2 : 53 <= Z.log2 n2) by (apply Z.log2_le_pow2; lia).
    destruct (Z_lt_le_dec n1 (2 ^ 53)) as [H1|H1].
    + rewrite (binary64_small n1) by done.
      assert (2 ^ 53 <= 2 ^ Z.log2 n2) by (apply Z.pow_le_mono_r; lia).
      lia.
    + pose proof (binary64_large n1 H1) as [_ Hhi1].
      pose proof (Z.log2_le_mono n1 n2 Hn) as HL.
      destruct (Z.eq_dec (Z.log2 n1) (Z.log2 n2)) as [Heq|Hne].
      * unfold System.binary64.
        destruct (Z.ltb_spec n1 (2 ^ 53)); [lia|].
        destruct (Z.ltb_spec n2 (2 ^ 53)); [lia|].
        rewrite Heq.
        assert (He : 0 < 2 ^ (Z.log2 n2 - 52))
          by (apply Z.pow_pos_nonneg; lia).
        pose proof (round_half_even_monotone n1 n2 _ He Hn). nia.
      * assert (2 ^ (Z.log2 n1 + 1) <= 2 ^ Z.log2 n2)
          by (apply Z.pow_le_mono_r; lia).
        lia.
Qed.

Lemma round_div_nearest scale n d :
  0 < d -> n < 2 ^ 53 ->
  2 * Z.abs (scale * n - System.round_div scale n d * d) <= d.
Proof.
  intros Hd Hn. unfold System.round_div.
  rewrite binary64_small by done. by apply round_half_even_nearest.
Qed.





Example to_gb_tie : System.to_gb (2 ^ 27) = 12 /\ System.to_gb (3 * 2 ^ 27) = 38.
Proof. split; reflexivity. Qed.

(** *** The monitoring loop *)

Lemma start_monitoring_running w :
  System.running (System.module w) = true ->
  System.start_monitoring w = w /\ System.handle_stats_start w = w.
Proof.
  intros Hrun. unfold System.handle_stats_start, System.start_monitoring.
  by rewrite Hrun.
Qed.

Lemma single_loop_length w : single_loop w -> (length (System.live w) <= 1)%nat.
Proof.
  intros [->|(_ & t & _ & ->)]; simpl; lia.
Qed.

Lemma filter_other_singleton (t : nat) : filter (fun u => u <> t) [t] = [].
Proof.
  rewrite filter_cons, decide_False by (intros H; by apply H). done.
Qed.

Lemma single_loop_start w : single_loop w -> single_loop (System.start_monitoring w).
Proof.
  intros Hw. unfold System.start_monitoring.
  destruct (System.running (System.module w)) eqn:Hrun; [exact Hw|].
  destruct Hw as [Hlive|(Hr & _)]; [|congruence].
  right. simpl. split; [done|]. exists (System.created w). by rewrite Hlive.
Qed.

Lemma single_loop_stop w : single_loop w -> single_loop (System.stop_monitoring true w).
Proof.
  intros Hw. left. unfold System.stop_monitoring.
  destruct Hw as [Hlive|(_ & t & Ht & Hlive)].
  - destruct (System.thread (System.module w)); simpl; by rewrite Hlive.
  - rewrite Ht, Hlive. simpl. apply filter_other_singleton.
Qed.

Lemma single_loop_test t w :
  single_loop w -> single_loop (System.test_step t w).
Proof.
  intros Hw. unfold System.test_step.
  destruct (negb _ || _) eqn:Hskip; [exact Hw|].
  apply orb_false_iff in Hskip as [Hlive _].
  apply negb_false_iff, bool_decide_eq_true in Hlive.
  destruct Hw as [Hnil|(Hrun & u & Hu & Hone)].
  - rewrite Hnil in Hlive. by apply elem_of_nil in Hlive.
  - rewrite Hrun. right. simpl. split; [done|]. by exists u.
Qed.

Lemma single_loop_body t b w :
  single_loop w -> single_loop (System.body_step t b w).
Proof.
  intros Hw. unfold System.body_step.
  destruct (_ && _) eqn:Hin; [|exact Hw].
  apply andb_true_iff in Hin as [Hlive _].
  apply bool_decide_eq_true in Hlive.
  destruct Hw as [Hnil|(Hrun & u & Hu & Hone)].
  - rewrite Hnil in Hlive. by apply elem_of_nil in Hlive.
  - rewrite Hone in Hlive. apply list_elem_of_singleton in Hlive as ->.
    destruct b as [h|].
    + right. simpl. split; [done|]. by exists u.
    + left. simpl. rewrite Hone. apply filter_other_singleton.
Qed.

Lemma single_loop_step a w :
  System.joins a = true -> single_loop w -> single_loop (System.step a w).
Proof.
  destruct a as [| |joined|joined|t b|t|t b]; simpl; intros Hj Hw.
  - by apply single_loop_start.
  - unfold System.handle_stats_start.
    destruct (negb _); [by apply single_loop_start|exact Hw].
  - subst joined. by apply single_loop_stop.
  - subst joined. by apply single_loop_stop.
  - by apply single_loop_body, single_loop_test.
  - by apply single_loop_test.
  - by apply single_loop_body.
Qed.

Lemma single_loop_run tr :
  forall w,
    forallb System.joins tr = true -> single_loop w ->
    single_loop (System.run tr w).
Proof.
  unfold System.run.
  induction tr as [|a tr IH]; simpl; intros w Hj Hw; [exact Hw|].
  apply andb_true_iff in Hj as [Ha Htr].
  apply IH; [exact Htr|]. by apply single_loop_step.
Qed.

(** What the guards of [start_monitoring] and of the handler of
    [system_stats_start] give: a start on a running monitor creates no
    thread and leaves the whole state as it is; and along the calls in which
    every [stop_monitoring] sees the thread leave within the timeout of its
    [join], at most one thread runs the loop. *)
Lemma joined_stops_single_loop (update_interval : Z)
  (tr : list System.action) :
  forallb System.joins tr = true ->
  (length (System.live (System.run tr (System.init update_interval))) <= 1)%nat
  /\ (forall w,
        System.running (System.module w) = true ->
        System.start_monitoring w = w /\ System.handle_stats_start w = w).
Proof.
  intros Hj. split.
  - apply single_loop_length, single_loop_run; [exact Hj|]. by left.
  - apply start_monitoring_running.
Qed.

(** C6, the code where it breaks the claim: [stop_monitoring] returns
    when its [join] times out (the thread sleeps for an [update_interval]
    of ten seconds), the thread is still in its loop, and the next
    [start_monitoring], which finds [self.running] cleared, creates a second
    thread; the first then finds [self.running] set again.  Two threads run
    the loop, and both emit. *)
Lemma two_monitoring_loops :
  System.live
    (System.run [System.Start; System.Stop false; System.Start] (System.init 10))
  = [1%nat; 0%nat]
  /\ ~ (length
          (System.live
             (System.run [System.Start; System.Stop false; System.Start]
                (System.init 10))) <= 1)%nat
  /\ System.emitted
       (System.run
          [System.Start; System.Stop false; System.Start;
           System.Iterate 0 (System.BodyReads demo_host);
           System.Iterate 1 (System.BodyReads demo_host)]
          (System.init 10))
     = [System.get_all_stats demo_host; System.get_all_stats demo_host].
Proof.
  split; [reflexivity|]. split; [|reflexivity].
  simpl. lia.
Qed.

Lemma quiet_step a w :
  System.starts a = false ->
  System.running (System.module w) = false ->
  System.inside w = [] ->
  System.running (System.module (System.step a w)) = false
  /\ System.inside (System.step a w) = []
  /\ System.emitted (System.step a w) = System.emitted w.
Proof.
  assert (Htest : forall t,
            System.running (System.module w) = false ->
            System.inside w = [] ->
            System.running (System.module (System.test_step t w)) = false
            /\ System.inside (System.test_step t w) = []
            /\ System.emitted (System.test_step t w) = System.emitted w).
  { intros t Hrun Hin. unfold System.test_step. rewrite Hrun.
    by destruct (negb _ || _). }
  assert (Hbody : forall t b w',
            System.inside w' = [] -> System.body_step t b w' = w').
  { intros t b w' Hin. unfold System.body_step. rewrite Hin.
    rewrite (bool_decide_eq_false_2 (t ∈ [])) by apply not_elem_of_nil.
    by rewrite andb_false_r. }
  destruct a as [| |joined|joined|t b|t|t b]; simpl; try discriminate;
    intros _ Hrun Hin.
  - unfold System.stop_monitoring. rewrite Hin.
    by destruct (System.thread (System.module w)), joined.
  - unfold System.handle_stats_stop, System.stop_monitoring. rewrite Hin.
    by destruct (System.thread (System.module w)), joined.
  - unfold System.monitor_step.
    destruct (Htest t Hrun Hin) as (Hr & Hi & He).
    by rewrite Hbody.
  - by apply Htest.
  - by rewrite Hbody.
Qed.

Lemma quiet_run tr :
  forall w,
    forallb (fun a => negb (System.starts a)) tr = true ->
    System.running (System.module w) = false ->
    System.inside w = [] ->
    System.running (System.module (System.run tr w)) = false
    /\ System.emitted (System.run tr w) = System.emitted w.
Proof.
  unfold System.run.
  induction tr as [|a tr IH]; simpl; intros w Hq Hrun Hin; [done|].
  apply andb_true_iff in Hq as [Ha Htr]. apply negb_true_iff in Ha.
  destruct (quiet_step a w Ha Hrun Hin) as (Hrun' & Hin' & Hem).
  destruct (IH _ Htr Hrun' Hin') as [Hrun'' Hem'].
  split; [exact Hrun''|]. by rewrite Hem'.
Qed.

Lemma stop_monitoring_clears joined w :
  System.running (System.module (System.stop_monitoring joined w)) = false
  /\ System.emitted (System.stop_monitoring joined w) = System.emitted w.
Proof.
  unfold System.stop_monitoring.
  by destruct (System.thread (System.module w)), joined.
Qed.

(** What clearing the flag gives: when no thread is between the test and
    the emit as [stop_monitoring] returns, nothing more is emitted until the
    monitor is started again. *)
Lemma stopped_monitor_without_orphan (joined : bool) (w : System.world)
  (tr : list System.action) :
  System.inside w = [] ->
  forallb (fun a => negb (System.starts a)) tr = true ->
  System.running
    (System.module (System.run tr (System.stop_monitoring joined w))) = false
  /\ System.emitted (System.run tr (System.stop_monitoring joined w))
     = System.emitted w.
Proof.
  intros Hin Hq.
  destruct (stop_monitoring_clears joined w) as [Hrun Hem].
  assert (Hin' : System.inside (System.stop_monitoring joined w) = []).
  { unfold System.stop_monitoring. rewrite Hin.
    by destruct (System.thread (System.module w)), joined. }
  destruct (quiet_run tr _ Hq Hrun Hin') as [Hrun' Hem'].
  by rewrite Hem in Hem'.
Qed.

(** C7, the code where it breaks the claim: with the two loops that a
    timed-out [join] and a restart leave, the first thread passes the test
    of [self.running]; [stop_monitoring] then clears the flag, joins
    [self.thread], which is the second thread, sees it leave and returns.
    The first thread, which no [join] waited for, is in the body: it emits
    after [stop_monitoring] has returned, with the flag cleared. *)
Lemma orphan_emits_after_stop :
  System.running
    (System.module
       (System.run
          [System.Start; System.Iterate 0 (System.BodyReads demo_host);
           System.Stop false; System.Start;
           System.Iterate 1 (System.BodyReads demo_host); System.Enter 0;
           System.Stop true]
          (System.init 10))) = false
  /\ System.live
       (System.run
          [System.Start; System.Iterate 0 (System.BodyReads demo_host);
           System.Stop false; System.Start;
           System.Iterate 1 (System.BodyReads demo_host); System.Enter 0;
           System.Stop true]
          (System.init 10)) = [0%nat]
  /\ length
       (System.emitted
          (System.run
             [System.Start; System.Iterate 0 (System.BodyReads demo_host);
              System.Stop false; System.Start;
              System.Iterate 1 (System.BodyReads demo_host); System.Enter 0;
              System.Stop true]
             (System.init 10))) = 2%nat
  /\ System.running
       (System.module
          (System.run
             [System.Start; System.Iterate 0 (System.BodyReads demo_host);
              System.Stop false; System.Start;
              System.Iterate 1 (System.BodyReads demo_host); System.Enter 0;
              System.Stop true;
              System.Finish 0 (System.BodyReads demo_host)]
             (System.init 10))) = false
  /\ length
       (System.emitted
          (System.run
             [System.Start; System.Iterate 0 (System.BodyReads demo_host);
              System.Stop false; System.Start;
              System.Iterate 1 (System.BodyReads demo_host); System.Enter 0;
              System.Stop true;
              System.Finish 0 (System.BodyReads demo_host)]
             (System.init 10))) = 3%nat.
Proof. split; [|split; [|split; [|split]]]; vm_compute; reflexivity. Qed.

(** ** The loader of the configuration *)

Lemma first_existing_none env :
  (forall p, p ∈ Main.possible_paths env -> Main.path_exists env p = false) ->
  Main.first_existing env (Main.possible_paths env) = None.
Proof.
  intros Hno. unfold Main.first_existing.
  induction (Main.possible_paths env) as [|p ps IH]; simpl; [done|].
  rewrite (Hno p) by apply list_elem_of_here.
  apply IH. intros q Hq. apply Hno. by apply list_elem_of_further.
Qed.

(** C8: when nothing exists at the path given nor at any default location,
    the configuration loaded is the built-in default one, in which the
    camera, media and system modules are enabled and the server is set to
    host [0.0.0.0], port [5000], debug off. *)
Theorem load_config_defaults (env : Main.Env) (config_path : option string) :
  (forall p, p ∈ Main.looked_up env config_path ->
             Main.path_exists env p = false) ->
  Main._load_config env config_path = Main.Returns Main._get_default_config
  /\ (Main.module_enabled Main._get_default_config "camera" = Some true
      /\ Main.module_enabled Main._get_default_config "media" = Some true
      /\ Main.module_enabled Main._get_default_config "system" = Some true)
  /\ (Main.server_setting Main._get_default_config "host" Main.JNull
        = Some (Main.JStr "0.0.0.0")
      /\ Main.server_setting Main._get_default_config "port" Main.JNull
         = Some (Main.JNum 5000)
      /\ Main.server_setting Main._get_default_config "debug" Main.JNull
         = Some (Main.JBool false)).
Proof.
  intros Hno. split; [|by repeat split].
  unfold Main._load_config.
  destruct config_path as [p|]; simpl in Hno.
  - rewrite (Hno p) by apply list_elem_of_here.
    by rewrite andb_false_r.
  - by rewrite first_existing_none.
Qed.

Lemma load_config_defaults_witness :
  Main._load_config demo_env (Some "/boot/dashboard.json")
  = Main.Returns Main._get_default_config.
Proof.
  apply (load_config_defaults demo_env (Some "/boot/dashboard.json")).
  intros p _. reflexivity.
Defined.

(** A path that is given and missing is not replaced by a default
    location: the defaults are loaded even if such a file exists. *)
Lemma load_config_given_missing env p :
  Main.path_exists env p = false ->
  Main._load_config env (Some p) = Main.Returns Main._get_default_config.
Proof.
  intros Hp. unfold Main._load_config. by rewrite Hp, andb_false_r.
Qed.

(** ** Missing resources *)

Lemma scan_missing lower fs self :
  Media.path_exists fs (Media.library_path self) = false ->
  Media.scan lower fs self
  = (Media.mkMediaLibrary (Media.library_path self) [], []).
Proof.
  intros Hno. unfold Media.scan. simpl. by rewrite Hno.
Qed.

(** C3, as the code has it: a scan of a library whose path is missing
    returns the empty list (and stores it), a feed whose device could not be
    opened gives [None] for its frame, as JPEG and as base64, and the
    temperature without a sensor is the number [0.0]. *)
Theorem unavailable_results (lower : string -> string) (fs : Media.filesystem)
  (self : Media.MediaLibrary) (cv2 : Camera.Cv2) (camera_id : Z)
  (name : string) :
  Media.path_exists fs (Media.library_path self) = false ->
  (Camera.start cv2 (Camera.init camera_id name)).1 = false ->
  (scan_returns lower fs self = RetList []
   /\ Media.media_files (Media.scan lower fs self).1 = [])
  /\ (get_frame_jpeg_returns cv2 (Camera.start cv2 (Camera.init camera_id name)).2
      = RetNone
      /\ Camera.get_frame_base64 cv2
           (Camera.start cv2 (Camera.init camera_id name)).2 = None)
  /\ get_temperature_returns System.SensorAbsent = RetFloat 0.
Proof.
  intros Hlib Hcam. split; [|split; [|reflexivity]].
  - unfold scan_returns. by rewrite (scan_missing lower fs self Hlib).
  - destruct (failed_start_no_frame cv2 camera_id name Hcam) as [Hframe _].
    destruct (get_frame_without_frame cv2 _ Hframe) as [Hjpeg Hb64].
    unfold get_frame_jpeg_returns. by rewrite Hjpeg.
Qed.

Lemma unavailable_results_witness :
  Media.path_exists (fun _ => Media.Missing) (Media.library_path demo_library)
  = false
  /\ (Camera.start demo_cv2 (Camera.init 1 "Rear")).1 = false
  /\ scan_returns Str.ascii_lower (fun _ => Media.Missing) demo_library
     = RetList [].
Proof.
  split; [reflexivity|]. split; [reflexivity|].
  apply (unavailable_results Str.ascii_lower (fun _ => Media.Missing)
           demo_library demo_cv2 1 "Rear"); reflexivity.
Defined.

(** C3, as stated, fails for the temperature: without a sensor the caller
    gets the number [0.0], which is neither [None] nor an empty
    collection. *)
Lemma temperature_not_absent :
  absent (get_temperature_returns System.SensorAbsent) = false.
Proof. reflexivity. Qed.

(** * The rest of the modules *)

(** ** The media module *)

Lemma scan_types lower fs self r :
  r ∈ (Media.scan lower fs self).2 ->
  Media.type r = "video" \/ Media.type r = "audio".
Proof.
  intros Hr.
  apply scan_elem in Hr as ([rel n] & _ & Hr).
  apply scan_entry_Some in Hr as (fname & sz & mt & _ & _ & ->).
  simpl. case_bool_decide; auto.
Qed.



Lemma length_video_audio (l : list Media.MediaFile) :
  Forall (fun r => Media.type r = "video" \/ Media.type r = "audio") l ->
  length l
  = (length (filter (fun f => Media.type f = "video") l)
     + length (filter (fun f => Media.type f = "audio") l))%nat.
Proof.
  induction 1 as [|r l Hr _ IH]; [done|].
  rewrite !filter_cons.
  destruct Hr as [Hr|Hr]; rewrite Hr; simpl; rewrite IH; lia.
Qed.

(** X1: after a scan through the route, the statistics of the library
    add up: the total is the number of video files plus the number of audio
    files, and it is the [count] the route answered. *)
Theorem library_stats_add_up (lower : string -> string)
  (fs : Media.filesystem) (self : Player.MediaModule) :
  Player.total_files
    (Player.get_library_stats (Player.media_scan lower fs self).1)
  = (Player.video_files
       (Player.get_library_stats (Player.media_scan lower fs self).1)
     + Player.audio_files
         (Player.get_library_stats (Player.media_scan lower fs self).1))%nat
  /\ (Player.media_scan lower fs self).2.1
     = Player.total_files
         (Player.get_library_stats (Player.media_scan lower fs self).1).
Proof.
  unfold Player.media_scan, Player.get_library_stats.
  pose proof (scan_stored lower fs (Player.library self)) as Hst.
  pose proof (scan_types lower fs (Player.library self)) as Hty.
  destruct (Media.scan lower fs (Player.library self)) as [lib files].
  simpl in *. subst files. split; [|done].
  apply length_video_audio. by apply Forall_forall.
Qed.



(** X3: a filter that is neither empty, ['video'] nor ['audio'] selects
    nothing of a scanned library. *)
Theorem get_files_unknown_type (lower : string -> string)
  (fs : Media.filesystem) (self : Media.MediaLibrary) (t : string) :
  t <> "" -> t <> "video" -> t <> "audio" ->
  Media.get_files (Media.scan lower fs self).1 (Some t) = [].
Proof.
  intros Hne Hv Ha. unfold Media.get_files.
  apply String.eqb_neq in Hne. rewrite Hne.
  rewrite scan_stored.
  pose proof (scan_types lower fs self) as Hty.
  induction (Media.scan lower fs self).2 as [|r l IH]; [done|].
  rewrite filter_cons.
  destruct (Hty r) as [Hr|Hr]; [apply list_elem_of_here|..];
    (case_decide as Ht; [congruence|]);
    apply IH; intros r' Hr'; apply Hty; by apply list_elem_of_further.
Qed.

Lemma get_files_unknown_type_witness :
  Media.get_files (Media.scan Str.ascii_lower demo_fs demo_library).1
    (Some "image") = [].
Proof.
  apply (get_files_unknown_type Str.ascii_lower demo_fs demo_library "image");
    discriminate.
Defined.

Lemma get_file_finds_aux (self : Media.MediaLibrary) (path : string) :
  match Player.get_file self path with
  | Some media => media ∈ Media.media_files self /\ Media.path media = path
  | None => forall media, media ∈ Media.media_files self -> Media.path media <> path
  end
  /\ (forall r, r ∈ Media.media_files self ->
        exists media, Player.get_file self (Media.path r) = Some media
                      /\ Media.path media = Media.path r).
Proof.
  unfold Player.get_file. split.
  - destruct (List.find _ _) as [media|] eqn:Hfind.
    + apply find_some in Hfind as [Hin Heq].
      split; [by apply list_elem_of_In|by apply String.eqb_eq].
    + intros media Hin. apply list_elem_of_In in Hin.
      by apply String.eqb_neq, (find_none _ _ Hfind).
  - intros r Hr.
    destruct (List.find _ _) as [media|] eqn:Hfind.
    + apply find_some in Hfind as [_ Heq]. apply String.eqb_eq in Heq.
      by exists media.
    + apply list_elem_of_In in Hr.
      pose proof (find_none _ _ Hfind r Hr) as Hno. simpl in Hno.
      by rewrite String.eqb_refl in Hno.
Qed.

(** X4: [get_file] answers with a record of the library that has the path
    asked for, and with [None] only when no record has it; so every stored
    record is found again by its path. *)
Theorem get_file_finds (self : Media.MediaLibrary) (path : string) :
  match Player.get_file self path with
  | Some media => media ∈ Media.media_files self /\ Media.path media = path
  | None => forall media, media ∈ Media.media_files self -> Media.path media <> path
  end
  /\ (forall r, r ∈ Media.media_files self ->
        exists media, Player.get_file self (Media.path r) = Some media
                      /\ Media.path media = Media.path r).
Proof. apply get_file_finds_aux. Qed.

(** X5: [media_play] either finds no record for the path (or gets no
    path), and then changes nothing and emits nothing, or makes a record of
    the library with that path the current media and emits it as playing;
    the library is never touched. *)
Theorem handle_play_outcome (self : Player.MediaModule) (path : option string) :
  ((Player.handle_play self path) = (self, [])
   /\ (forall p media, path = Some p ->
         media ∈ Media.media_files (Player.library self) ->
         Media.path media <> p))
  \/ (exists p media,
        path = Some p
        /\ media ∈ Media.media_files (Player.library self)
        /\ Media.path media = p
        /\ Player.current_media (Player.handle_play self path).1 = Some media
        /\ Player.library (Player.handle_play self path).1 = Player.library self
        /\ (Player.handle_play self path).2 = [Player.Playing media]).
Proof.
  unfold Player.handle_play. destruct path as [p|].
  - pose proof (proj1 (get_file_finds_aux (Player.library self) p)) as Hf.
    destruct (Player.get_file (Player.library self) p) as [media|].
    + right. exists p, media. destruct Hf as [Hin Hp]. by repeat split.
    + left. split; [done|]. intros p' media [= <-]. apply Hf.
  - left. split; [done|]. intros p media Hp. discriminate.
Qed.





Example scan_same_name :
  map Media.filename
    (Media.scan Str.ascii_lower
       (fun _ => Media.Directory
                   [ Media.File "song.mp3" (Some (1, 1));
                     Media.File "Song.flac" (Some (2, 2));
                     Media.File "SONG.ogg" (Some (3, 3)) ])
       demo_library).2
  = ["song.mp3"; "Song.flac"; "SONG.ogg"].
Proof. vm_compute. reflexivity. Qed.

(** ** The camera module *)

Lemma capture_step_fields r self :
  Camera.camera_id (Camera.capture_step r self).1 = Camera.camera_id self
  /\ Camera.name (Camera.capture_step r self).1 = Camera.name self
  /\ Camera.camera (Camera.capture_step r self).1 = Camera.camera self
  /\ Camera.running (Camera.capture_step r self).1 = Camera.running self
  /\ Camera.thread (Camera.capture_step r self).1 = Camera.thread self
  /\ (is_Some (Camera.frame self) ->
      is_Some (Camera.frame (Camera.capture_step r self).1)).
Proof.
  unfold Camera.capture_step.
  destruct (Camera.running self) eqn:Hrun; simpl; [|by repeat split].
  destruct r as [|[] fr]; simpl; repeat split; eauto.
Qed.

Lemma capture_loop_fields (reads : list Camera.read_result)
  (self : Camera.CameraFeed) :
  Camera.camera_id (Feeds._capture_loop reads self) = Camera.camera_id self
  /\ Camera.name (Feeds._capture_loop reads self) = Camera.name self
  /\ Camera.camera (Feeds._capture_loop reads self) = Camera.camera self
  /\ Camera.running (Feeds._capture_loop reads self) = Camera.running self
  /\ Camera.thread (Feeds._capture_loop reads self) = Camera.thread self
  /\ (is_Some (Camera.frame self) ->
      is_Some (Camera.frame (Feeds._capture_loop reads self)))
  /\ (Camera.running self = false -> Feeds._capture_loop reads self = self).
Proof.
  revert self. induction reads as [|r reads IH]; intros self; simpl.
  - by repeat split.
  - pose proof (capture_step_fields r self) as (Hid & Hn & Hc & Hr & Ht & Hf).
    assert (Hstop : Camera.running self = false ->
                    Camera.capture_step r self = (self, false))
      by (unfold Camera.capture_step; by intros ->).
    destruct (Camera.capture_step r self) as [self' goes_on] eqn:Hstep.
    simpl in *. destruct goes_on.
    + destruct (IH self') as (Hid' & Hn' & Hc' & Hr' & Ht' & Hf' & Hs').
      repeat split; try congruence; [by auto|].
      intros Hoff. specialize (Hstop Hoff). congruence.
    + repeat split; try congruence; [by auto|].
      intros Hoff. specialize (Hstop Hoff). congruence.
Qed.

(** X7: the capture loop writes the frame slot only: identity, name,
    capture object, running flag and thread are as before, and a slot that
    holds a frame never goes back to empty; on a feed that is not running
    the loop changes nothing. *)
Theorem capture_loop_writes_frame_only (reads : list Camera.read_result)
  (self : Camera.CameraFeed) :
  Camera.camera_id (Feeds._capture_loop reads self) = Camera.camera_id self
  /\ Camera.name (Feeds._capture_loop reads self) = Camera.name self
  /\ Camera.camera (Feeds._capture_loop reads self) = Camera.camera self
  /\ Camera.running (Feeds._capture_loop reads self) = Camera.running self
  /\ Camera.thread (Feeds._capture_loop reads self) = Camera.thread self
  /\ (is_Some (Camera.frame self) ->
      is_Some (Camera.frame (Feeds._capture_loop reads self)))
  /\ (Camera.running self = false -> Feeds._capture_loop reads self = self).
Proof. apply capture_loop_fields. Qed.

Lemma capture_loop_app reads r self :
  Camera.running self = true ->
  Forall (fun r => r <> Camera.ReadRaises) reads ->
  Feeds._capture_loop (reads ++ [r]) self
  = (Camera.capture_step r (Feeds._capture_loop reads self)).1.
Proof.
  intros Hrun Hreads. revert self Hrun.
  induction Hreads as [|r0 reads Hr0 _ IH]; intros self Hrun; simpl.
  - by destruct (Camera.capture_step r self) as [self' []].
  - pose proof (capture_step_fields r0 self) as (_ & _ & _ & Hr & _).
    unfold Camera.capture_step in *. rewrite Hrun in *. simpl in *.
    destruct r0 as [|[] fr]; [done|..]; apply IH; simpl; done.
Qed.

(** X8: while the feed runs and no read raises, the slot holds the frame
    of the latest read that succeeded: after a last read that gives a frame,
    that frame is the one in the slot, whatever was read before. *)
Theorem capture_loop_latest_frame (reads : list Camera.read_result)
  (fr : Camera.Frame) (self : Camera.CameraFeed) :
  Camera.running self = true ->
  Forall (fun r => r <> Camera.ReadRaises) reads ->
  Camera.frame (Feeds._capture_loop (reads ++ [Camera.Read true fr]) self)
  = Some fr.
Proof.
  intros Hrun Hreads. rewrite capture_loop_app by done.
  pose proof (capture_loop_fields reads self) as (_ & _ & _ & Hr & _).
  unfold Camera.capture_step. rewrite Hr, Hrun. done.
Qed.

Lemma capture_loop_latest_frame_witness :
  Camera.frame
    (Feeds._capture_loop
       ([Camera.Read true [1]; Camera.Read false []] ++ [Camera.Read true [2]])
       (Camera.start demo_cv2 (Camera.init 0 "Camera")).2)
  = Some [2].
Proof.
  apply (capture_loop_latest_frame
           [Camera.Read true [1]; Camera.Read false []] [2]
           (Camera.start demo_cv2 (Camera.init 0 "Camera")).2).
  - reflexivity.
  - repeat constructor; discriminate.
Defined.

(** X9: a frame request is answered only for a camera of the module whose
    frame encodes to a JPEG that is not empty, and the answer names the
    camera asked for and carries the base64 text of that JPEG. *)
Theorem frame_request_answer (cv2 : Camera.Cv2) (self : Camera.CameraModule)
  (camera_id answered : Z) (text : string) :
  Camera.handle_frame_request cv2 self camera_id = Some (answered, text) ->
  answered = camera_id
  /\ text <> ""
  /\ exists feed jpeg,
       Camera.feeds self !! camera_id = Some feed
       /\ Camera.get_frame_jpeg cv2 feed = Some jpeg
       /\ jpeg <> []
       /\ text = Camera.b64encode cv2 jpeg.
Proof.
  unfold Camera.handle_frame_request, Camera.get_frame_base64.
  destruct (Camera.feeds self !! camera_id) as [feed|] eqn:Hfeed;
    [|discriminate].
  destruct (Camera.get_frame_jpeg cv2 feed) as [[|b bs]|] eqn:Hjpeg;
    try discriminate.
  destruct (Camera.b64encode cv2 (b :: bs)) as [|c s] eqn:Htext;
    [discriminate|].
  intros [= <- <-]. split; [done|]. split; [done|].
  exists feed, (b :: bs). by repeat split.
Qed.

Lemma frame_request_answer_witness :
  Camera.handle_frame_request demo_cv2
    (Camera.mkCameraModule
       {[ 0 := Feeds._capture_loop [Camera.Read true [7]]
                 (Camera.start demo_cv2 (Camera.init 0 "Camera")).2 ]}) 0
  = Some (0, "/9j/")
  /\ "/9j/" <> "".
Proof.
  split; [reflexivity|].
  apply (frame_request_answer demo_cv2
           (Camera.mkCameraModule
              {[ 0 := Feeds._capture_loop [Camera.Read true [7]]
                        (Camera.start demo_cv2 (Camera.init 0 "Camera")).2 ]})
           0 0 "/9j/").
  reflexivity.
Defined.

(** X10: [add_camera] touches no other camera, answers [True] exactly when
    the camera is in the module afterwards, and after a [False] the module
    is as it was. *)
Theorem add_camera_frame (cv2 : Camera.Cv2) (self : Camera.CameraModule)
  (camera_id : Z) (name : string) :
  (forall other, other <> camera_id ->
     Camera.feeds (Camera.add_camera cv2 self camera_id name).2 !! other
     = Camera.feeds self !! other)
  /\ ((Camera.add_camera cv2 self camera_id name).1 = true
      <-> is_Some
            (Camera.feeds (Camera.add_camera cv2 self camera_id name).2
               !! camera_id))
  /\ ((Camera.add_camera cv2 self camera_id name).1 = false ->
      (Camera.add_camera cv2 self camera_id name).2 = self).
Proof.
  unfold Camera.add_camera.
  destruct (Camera.feeds self !! camera_id) as [feed|] eqn:Hfeed.
  - simpl. rewrite Hfeed. by repeat split.
  - destruct (Camera.start cv2 (Camera.init camera_id name)) as [[] feed];
      simpl.
    + split; [|split; [|done]].
      * intros other Hne. by rewrite lookup_insert_ne.
      * rewrite lookup_insert_eq. by split.
    + rewrite Hfeed. split; [done|]. split; [|done].
      split; [done|]. by intros [? ?].
Qed.

(** X11: adding a camera that the module does not have and removing it
    again gives the module back, whether the camera started or not; and
    removing a camera that is not there changes nothing. *)
Theorem add_then_remove_camera (cv2 : Camera.Cv2) (self : Camera.CameraModule)
  (camera_id : Z) (name : string) :
  Camera.feeds self !! camera_id = None ->
  Camera.remove_camera (Camera.add_camera cv2 self camera_id name).2 camera_id
  = self
  /\ Camera.remove_camera self camera_id = self.
Proof.
  intros Hfeed. unfold Camera.add_camera, Camera.remove_camera.
  rewrite Hfeed. split; [|done].
  destruct (Camera.start cv2 (Camera.init camera_id name)) as [[] feed];
    simpl.
  - rewrite lookup_insert_eq, delete_insert_eq.
    destruct self as [feeds]. simpl in *. by rewrite delete_id.
  - by rewrite Hfeed.
Qed.

Lemma add_then_remove_camera_witness :
  Camera.remove_camera
    (Camera.add_camera demo_cv2 (Camera.mkCameraModule ∅) 0 "Front").2 0
  = Camera.mkCameraModule ∅.
Proof.
  apply (add_then_remove_camera demo_cv2 (Camera.mkCameraModule ∅) 0 "Front").
  apply lookup_empty.
Defined.

Lemma remove_camera_feeds self camera_id :
  Camera.feeds (Camera.remove_camera self camera_id)
  = delete camera_id (Camera.feeds self).
Proof.
  unfold Camera.remove_camera.
  destruct (Camera.feeds self !! camera_id) eqn:Hfeed; simpl; [done|].
  by rewrite delete_id.
Qed.

Lemma remove_cameras_lookup ids self other :
  Camera.feeds
    (foldr (fun id m => Camera.remove_camera m id) self ids) !! other
  = if bool_decide (other ∈ ids) then None else Camera.feeds self !! other.
Proof.
  induction ids as [|id ids IH]; simpl; [done|].
  rewrite remove_camera_feeds, lookup_delete, IH.
  destruct (decide (id = other)) as [->|Hne].
  - by rewrite bool_decide_eq_true_2 by apply list_elem_of_here.
  - destruct (bool_decide (other ∈ ids)) eqn:Hin.
    + apply bool_decide_eq_true in Hin.
      by rewrite bool_decide_eq_true_2 by (by apply list_elem_of_further).
    + apply bool_decide_eq_false in Hin.
      rewrite bool_decide_eq_false_2; [done|].
      intros Hc. inversion Hc; subst; auto.
Qed.

(** X12: [stop_all] leaves what removing the cameras of the module one by
    one leaves: a module without feeds, in which no frame request is
    answered. *)
Theorem stop_all_removes_every_camera (cv2 : Camera.Cv2)
  (self : Camera.CameraModule) :
  Feeds.stop_all self
  = foldr (fun id m => Camera.remove_camera m id) self
      (elements (dom (Camera.feeds self)))
  /\ (forall camera_id,
        Camera.handle_frame_request cv2 (Feeds.stop_all self) camera_id = None).
Proof.
  split; [|done].
  unfold Feeds.stop_all.
  pose proof (remove_cameras_lookup (elements (dom (Camera.feeds self))) self)
    as Hlook.
  destruct (foldr _ self _) as [feeds]. simpl in Hlook. f_equal.
  symmetry. apply map_empty. intros other. rewrite Hlook.
  case_bool_decide as Hin; [done|].
  apply not_elem_of_dom. by rewrite <- elem_of_elements.
Qed.

(** ** The system monitor *)

Lemma round_div_monotone scale n1 n2 d :
  0 < d -> 0 <= scale -> 0 <= n1 <= n2 ->
  System.round_div scale n1 d <= System.round_div scale n2 d.
Proof.
  intros Hd Hs Hn. unfold System.round_div.
  apply round_half_even_monotone; [exact Hd|].
  pose proof (binary64_monotone n1 n2 Hn). nia.
Qed.

Lemma round_div_zero scale d : 0 < d -> System.round_div scale 0 d = 0.
Proof.
  intros Hd. unfold System.round_div.
  rewrite binary64_small by lia.
  replace (scale * 0) with (0 * d) by lia.
  by apply round_half_even_exact.
Qed.

(** X13: the conversion to gigabytes keeps the order of the byte counts
    and sends zero to zero: a count that is not negative gives gigabytes
    that are not, and a [used] that is at most the [total] gives a [used_gb]
    that is at most the [total_gb], for the memory and for the disk. *)
Theorem gigabytes_keep_order (mem : System.svmem) (disk : System.sdiskusage) :
  0 <= System.vm_used mem <= System.vm_total mem ->
  0 <= System.du_used disk <= System.du_total disk ->
  0 <= System.mem_used_gb (System.get_memory_usage mem)
    <= System.mem_total_gb (System.get_memory_usage mem)
  /\ 0 <= System.disk_used_gb (System.get_disk_usage disk)
       <= System.disk_total_gb (System.get_disk_usage disk).
Proof.
  intros [Hm0 Hm] [Hd0 Hd]. simpl. unfold System.to_gb.
  assert (H0 : System.round_div 100 0 (1024 ^ 3) = 0)
    by (by apply round_div_zero).
  pose proof (round_div_monotone 100 0 (System.vm_used mem) (1024 ^ 3)).
  pose proof (round_div_monotone 100 (System.vm_used mem) (System.vm_total mem)
                (1024 ^ 3)).
  pose proof (round_div_monotone 100 0 (System.du_used disk) (1024 ^ 3)).
  pose proof (round_div_monotone 100 (System.du_used disk)
                (System.du_total disk) (1024 ^ 3)).
  lia.
Qed.

Lemma gigabytes_keep_order_witness :
  0 <= System.mem_used_gb (System.get_memory_usage (System.virtual_memory demo_host))
    <= System.mem_total_gb
         (System.get_memory_usage (System.virtual_memory demo_host)).
Proof.
  apply (gigabytes_keep_order (System.virtual_memory demo_host)
           (System.disk_usage demo_host)); simpl; lia.
Defined.

(** X14: for byte counters below [2 ** 53], where the division is exact
    in binary64, the megabyte fields of the network statistics are the byte
    counters divided by [1024 ** 2] and rounded to the nearest hundredth. *)
Theorem megabytes_are_binary (net_io : System.snetio) :
  0 <= System.io_bytes_sent net_io < 2 ^ 53 ->
  0 <= System.io_bytes_recv net_io < 2 ^ 53 ->
  System.bytes_sent (System.get_network_stats net_io)
  = System.io_bytes_sent net_io
  /\ System.bytes_recv (System.get_network_stats net_io)
     = System.io_bytes_recv net_io
  /\ nearest_mb (System.bytes_sent (System.get_network_stats net_io))
       (System.mb_sent (System.get_network_stats net_io))
  /\ nearest_mb (System.bytes_recv (System.get_network_stats net_io))
       (System.mb_recv (System.get_network_stats net_io)).
Proof.
  intros Hs Hr. simpl. unfold nearest_mb, System.to_mb.
  repeat split; apply round_div_nearest; lia.
Qed.

Lemma megabytes_are_binary_witness :
  nearest_mb
    (System.bytes_sent
       (System.get_network_stats (System.net_io_counters demo_host)))
    (System.mb_sent
       (System.get_network_stats (System.net_io_counters demo_host))).
Proof.
  apply (megabytes_are_binary (System.net_io_counters demo_host));
    simpl; lia.
Defined.

(** X15: the two CPU counts are never zero: a count that [psutil] does not
    know, or gives as zero, is reported as one, and any other is reported as
    it is. *)
Theorem cpu_count_never_zero (cores cpus : option Z) :
  Monitor.physical (Monitor.get_cpu_count cores cpus) <> 0
  /\ Monitor.logical (Monitor.get_cpu_count cores cpus) <> 0
  /\ (forall n, cores = Some n -> n <> 0 ->
        Monitor.physical (Monitor.get_cpu_count cores cpus) = n)
  /\ (forall n, cpus = Some n -> n <> 0 ->
        Monitor.logical (Monitor.get_cpu_count cores cpus) = n)
  /\ Monitor.get_cpu_count None None = Monitor.mkCpuCount 1 1.
Proof.
  unfold Monitor.get_cpu_count, Monitor.or_one. simpl.
  repeat split.
  - destruct cores as [n|]; [|done]. destruct (Z.eqb_spec n 0); lia.
  - destruct cpus as [n|]; [|done]. destruct (Z.eqb_spec n 0); lia.
  - intros n -> Hn. destruct (Z.eqb_spec n 0); lia.
  - intros n -> Hn. destruct (Z.eqb_spec n 0); lia.
Qed.

(** X16: for an uptime that is not negative, the days, hours and minutes
    of [get_uptime] are the uptime cut into whole days, hours below 24 and
    minutes below 60: together they fall short of the uptime by less than a
    minute. *)
Theorem uptime_decomposes (hz boot now : Z) :
  0 < hz -> boot <= now ->
  0 <= Monitor.days (Monitor.get_uptime hz boot now)
  /\ 0 <= Monitor.hours (Monitor.get_uptime hz boot now) < 24
  /\ 0 <= Monitor.minutes (Monitor.get_uptime hz boot now) < 60
  /\ (Monitor.days (Monitor.get_uptime hz boot now) * 86400
      + Monitor.hours (Monitor.get_uptime hz boot now) * 3600
      + Monitor.minutes (Monitor.get_uptime hz boot now) * 60) * hz
     <= Monitor.uptime_seconds (Monitor.get_uptime hz boot now)
     < (Monitor.days (Monitor.get_uptime hz boot now) * 86400
        + Monitor.hours (Monitor.get_uptime hz boot now) * 3600
        + Monitor.minutes (Monitor.get_uptime hz boot now) * 60 + 60) * hz.
Proof.
  intros Hhz Hnow. simpl.
  set (u := now - boot). assert (Hu : 0 <= u) by lia. clearbody u.
  assert (Hmod : u mod (3600 * hz) = (u mod (86400 * hz)) mod (3600 * hz)).
  { symmetry. apply Z.mod_mod_divide. exists 24. lia. }
  rewrite Hmod.
  pose proof (Z.div_mod u (86400 * hz) ltac:(lia)) as Hd.
  pose proof (Z.mod_pos_bound u (86400 * hz) ltac:(lia)) as Hdb.
  set (r := u mod (86400 * hz)) in *.
  pose proof (Z.div_mod r (3600 * hz) ltac:(lia)) as Hh.
  pose proof (Z.mod_pos_bound r (3600 * hz) ltac:(lia)) as Hhb.
  set (r2 := r mod (3600 * hz)) in *.
  pose proof (Z.div_mod r2 (60 * hz) ltac:(lia)) as Hm.
  pose proof (Z.mod_pos_bound r2 (60 * hz) ltac:(lia)) as Hmb.
  set (D := u / (86400 * hz)) in *. set (H := r / (3600 * hz)) in *.
  set (M := r2 / (60 * hz)) in *. set (r3 := r2 mod (60 * hz)) in *.
  assert (0 <= D) by (apply Z.div_pos; lia).
  assert (0 <= H) by (apply Z.div_pos; lia).
  assert (0 <= M) by (apply Z.div_pos; lia).
  assert (H < 24) by nia. assert (M < 60) by nia.
  repeat split; try lia; nia.
Qed.

Lemma uptime_decomposes_witness :
  Monitor.days (Monitor.get_uptime 1000 1700000000000 1700093784500) = 1
  /\ 0 <= Monitor.hours (Monitor.get_uptime 1000 1700000000000 1700093784500)
       < 24.
Proof.
  split; [reflexivity|].
  apply (uptime_decomposes 1000 1700000000000 1700093784500); lia.
Defined.

Lemma dead_step a w :
  stops a = false ->
  System.live w = [] -> System.running (System.module w) = true ->
  System.step a w = w.
Proof.
  intros Ha Hlive Hrun.
  assert (Htest : forall t, System.test_step t w = w).
  { intros t. unfold System.test_step. rewrite Hlive.
    by rewrite (bool_decide_eq_false_2 (t ∈ [])) by apply not_elem_of_nil. }
  assert (Hbody : forall t b, System.body_step t b w = w).
  { intros t b. unfold System.body_step. rewrite Hlive.
    by rewrite (bool_decide_eq_false_2 (t ∈ [])) by apply not_elem_of_nil. }
  destruct a as [| |joined|joined|t b|t|t b]; simpl in *; try discriminate.
  - unfold System.start_monitoring. by rewrite Hrun.
  - unfold System.handle_stats_start. by rewrite Hrun.
  - unfold System.monitor_step. by rewrite Htest, Hbody.
  - apply Htest.
  - apply Hbody.
Qed.

Lemma dead_run tr w :
  forallb (fun a => negb (stops a)) tr = true ->
  System.live w = [] -> System.running (System.module w) = true ->
  System.run tr w = w.
Proof.
  unfold System.run.
  induction tr as [|a tr IH]; simpl; intros Hq Hlive Hrun; [done|].
  apply andb_true_iff in Hq as [Ha Htr]. apply negb_true_iff in Ha.
  rewrite (dead_step a w Ha Hlive Hrun). by apply IH.
Qed.

(** X17: a loop that ends on an exception leaves [self.running] set, so
    the monitor stays dead: as long as nothing stops it, every later start,
    by call or by event, is taken for a start of a running monitor and does
    nothing; no thread runs the loop and nothing more is emitted. *)
Theorem raised_loop_stays_dead (w : System.world) (t : nat)
  (tr : list System.action) :
  System.running (System.module w) = true ->
  System.live w = [t] ->
  forallb (fun a => negb (stops a)) tr = true ->
  System.live (System.run tr (System.monitor_step t System.BodyRaises w)) = []
  /\ System.running
       (System.module
          (System.run tr (System.monitor_step t System.BodyRaises w))) = true
  /\ System.emitted
       (System.run tr (System.monitor_step t System.BodyRaises w))
     = System.emitted w.
Proof.
  intros Hrun Hlive Htr.
  assert (Hstep : exists inside,
             System.monitor_step t System.BodyRaises w
             = System.mkWorld (System.module w) [] inside (System.created w)
                 (System.emitted w)).
  { unfold System.monitor_step, System.test_step. rewrite Hlive, Hrun.
    rewrite (bool_decide_eq_true_2 (t ∈ [t])) by apply list_elem_of_here.
    simpl. unfold System.body_step.
    destruct (bool_decide (t ∈ System.inside w)) eqn:Hin; simpl.
    - rewrite Hlive, Hin.
      rewrite (bool_decide_eq_true_2 (t ∈ [t])) by apply list_elem_of_here.
      simpl. rewrite filter_other_singleton. by eexists.
    - rewrite (bool_decide_eq_true_2 (t ∈ [t])) by apply list_elem_of_here.
      rewrite (bool_decide_eq_true_2 (t ∈ t :: System.inside w))
        by apply list_elem_of_here.
      simpl. rewrite filter_other_singleton. by eexists. }
  destruct Hstep as [inside ->]. rewrite dead_run; done.
Qed.

Lemma raised_loop_stays_dead_witness :
  System.live
    (System.run [System.Start; System.StartEvent; System.Iterate 0 (System.BodyReads demo_host)]
       (System.monitor_step 0 System.BodyRaises
          (System.start_monitoring (System.init 2)))) = [].
Proof.
  apply (raised_loop_stays_dead (System.start_monitoring (System.init 2)) 0
           [System.Start; System.StartEvent;
            System.Iterate 0 (System.BodyReads demo_host)]);
    reflexivity.
Defined.

(** X18: stopping a monitor whose thread is seen to leave and starting it
    again gives a running monitor with exactly one loop, run by a new thread
    that the module holds; the events emitted so far are kept. *)
Theorem restart_after_stop (w : System.world) :
  single_loop w ->
  System.running
    (System.module (System.start_monitoring (System.stop_monitoring true w)))
  = true
  /\ System.live (System.start_monitoring (System.stop_monitoring true w))
     = [System.created w]
  /\ System.thread
       (System.module (System.start_monitoring (System.stop_monitoring true w)))
     = Some (System.created w)
  /\ System.emitted (System.start_monitoring (System.stop_monitoring true w))
     = System.emitted w.
Proof.
  intros Hw.
  destruct (stop_monitoring_clears true w) as [Hrun Hem].
  assert (Hcreated : System.created (System.stop_monitoring true w)
                     = System.created w).
  { unfold System.stop_monitoring.
    by destruct (System.thread (System.module w)). }
  destruct (single_loop_stop w Hw) as [Hlive|(Hrun' & _)]; [|congruence].
  unfold System.start_monitoring. rewrite Hrun. simpl.
  by rewrite Hlive, Hcreated, Hem.
Qed.

Lemma restart_after_stop_witness :
  System.live
    (System.start_monitoring
       (System.stop_monitoring true (System.start_monitoring (System.init 2))))
  = [1%nat].
Proof.
  apply (restart_after_stop (System.start_monitoring (System.init 2))).
  right. split; [reflexivity|]. by exists 0%nat.
Defined.

(** ** The dashboard *)

Lemma find_first {A} (f : A -> bool) (l : list A) (i : nat) (x : A) :
  l !! i = Some x -> f x = true ->
  (forall j y, (j < i)%nat -> l !! j = Some y -> f y = false) ->
  List.find f l = Some x.
Proof.
  revert i. induction l as [|y l IH]; intros i Hi Hx Hbefore; [done|].
  destruct i as [|i]; simpl in *.
  - injection Hi as ->. by rewrite Hx.
  - rewrite (Hbefore 0%nat y) by (done || lia).
    apply (IH i); [done..|].
    intros j z Hj Hz. apply (Hbefore (S j) z); [lia|done].
Qed.

Lemma append_nonempty (s t : string) : t <> "" -> (s ++ t)%string <> "".
Proof. destruct s; [done|]. intros _. discriminate. Qed.

Lemma possible_paths_nonempty env p :
  p ∈ Main.possible_paths env -> p <> "".
Proof.
  unfold Main.possible_paths. rewrite !elem_of_cons, elem_of_nil.
  intros [->|[->|[->|[->|[]]]]]; try discriminate;
    by apply append_nonempty.
Qed.

Lemma load_config_at env p :
  p <> "" ->
  Main._load_config env (Some p)
  = match Main.disk env p with
    | Main.NoEntry => Main.Returns Main._get_default_config
    | Main.FileEntry (Some config) => Main.Returns config
    | _ => Main.Raises
    end.
Proof.
  intros Hp. unfold Main._load_config, Main.path_exists.
  apply String.eqb_neq in Hp. rewrite Hp. simpl.
  by destruct (Main.disk env p) as [| |[config|]].
Qed.

(** X19: a file that exists at the path given is the configuration, and
    the default locations are not looked at; when it is a directory or does
    not parse as JSON the loader raises, and does not fall back to the
    defaults. *)
Theorem load_config_given_path (env : Main.Env) (p : string) :
  p <> "" ->
  Main.path_exists env p = true ->
  Main._load_config env (Some p)
  = match Main.disk env p with
    | Main.FileEntry (Some config) => Main.Returns config
    | _ => Main.Raises
    end.
Proof.
  intros Hp Hex. rewrite (load_config_at env p Hp).
  unfold Main.path_exists in Hex.
  by destruct (Main.disk env p) as [| |[config|]].
Qed.

Lemma load_config_given_path_witness :
  Main._load_config
    (Main.mkEnv
       (fun p => if String.eqb p "/boot/dashboard.json"
                 then Main.FileEntry (Some (Main.JObj []))
                 else if String.eqb p "/etc/pi-dashboard/config.json"
                      then Main.FileEntry (Some Main._get_default_config)
                      else Main.NoEntry)
       "/home/pi" "/opt/pi-dashboard")
    (Some "/boot/dashboard.json")
  = Main.Returns (Main.JObj []).
Proof.
  apply (load_config_given_path
           (Main.mkEnv
              (fun p => if String.eqb p "/boot/dashboard.json"
                        then Main.FileEntry (Some (Main.JObj []))
                        else if String.eqb p "/etc/pi-dashboard/config.json"
                             then Main.FileEntry (Some Main._get_default_config)
                             else Main.NoEntry)
              "/home/pi" "/opt/pi-dashboard")
           "/boot/dashboard.json"); [discriminate|reflexivity].
Defined.

(** X20: when no path is given, the first default location that exists
    decides: its file is the configuration, the later locations are not
    looked at, and when it is a directory or does not parse the loader
    raises. *)
Theorem load_config_first_default (env : Main.Env) (i : nat) (p : string) :
  Main.possible_paths env !! i = Some p ->
  Main.path_exists env p = true ->
  (forall j q, (j < i)%nat -> Main.possible_paths env !! j = Some q ->
               Main.path_exists env q = false) ->
  Main._load_config env None
  = match Main.disk env p with
    | Main.FileEntry (Some config) => Main.Returns config
    | _ => Main.Raises
    end.
Proof.
  intros Hi Hex Hbefore.
  assert (Hp : p <> "").
  { apply (possible_paths_nonempty env). by eapply list_elem_of_lookup_2. }
  pose proof (load_config_at env p Hp) as Hat.
  unfold Main._load_config in *. unfold Main.first_existing.
  rewrite (find_first _ _ i p Hi Hex Hbefore), Hat.
  unfold Main.path_exists in Hex.
  by destruct (Main.disk env p) as [| |[config|]].
Qed.

Lemma load_config_first_default_witness :
  Main._load_config
    (Main.mkEnv
       (fun p => if String.eqb p "/home/pi/.config/pi-dashboard/config.json"
                 then Main.FileEntry (Some (Main.JObj []))
                 else if String.eqb p "/opt/pi-dashboard/config/default.json"
                      then Main.FileEntry None
                      else Main.NoEntry)
       "/home/pi" "/opt/pi-dashboard")
    None
  = Main.Returns (Main.JObj []).
Proof.
  apply (load_config_first_default
           (Main.mkEnv
              (fun p => if String.eqb p "/home/pi/.config/pi-dashboard/config.json"
                        then Main.FileEntry (Some (Main.JObj []))
                        else if String.eqb p "/opt/pi-dashboard/config/default.json"
                             then Main.FileEntry None
                             else Main.NoEntry)
              "/home/pi" "/opt/pi-dashboard")
           1 "/home/pi/.config/pi-dashboard/config.json").
  - reflexivity.
  - reflexivity.
  - intros [|j] q Hj; [|lia]. intros [= <-]. reflexivity.
Defined.

(** X21: a path that is given and missing is not replaced by a default
    location: the built-in defaults are loaded even when a default location
    holds a file, which the call without a path would have loaded. *)
Theorem load_config_missing_path_skips_defaults (env : Main.Env) (p : string)
  (config : Main.json) :
  Main.path_exists env p = false ->
  Main.disk env "/etc/pi-dashboard/config.json"
  = Main.FileEntry (Some config) ->
  Main._load_config env (Some p) = Main.Returns Main._get_default_config
  /\ Main._load_config env None = Main.Returns config.
Proof.
  intros Hp Hetc. split.
  - unfold Main._load_config. by rewrite Hp, andb_false_r.
  - unfold Main._load_config, Main.first_existing, Main.possible_paths.
    simpl. unfold Main.path_exists at 1. rewrite Hetc. simpl.
    unfold Main.path_exists. by rewrite Hetc.
Qed.

Lemma load_config_missing_path_skips_defaults_witness :
  Main._load_config
    (Main.mkEnv
       (fun p => if String.eqb p "/etc/pi-dashboard/config.json"
                 then Main.FileEntry (Some (Main.JObj []))
                 else Main.NoEntry)
       "/home/pi" "/opt/pi-dashboard")
    (Some "/boot/dashbord.json")
  = Main.Returns Main._get_default_config.
Proof.
  apply (load_config_missing_path_skips_defaults
           (Main.mkEnv
              (fun p => if String.eqb p "/etc/pi-dashboard/config.json"
                        then Main.FileEntry (Some (Main.JObj []))
                        else Main.NoEntry)
              "/home/pi" "/opt/pi-dashboard")
           "/boot/dashbord.json" (Main.JObj [])); reflexivity.
Defined.

Lemma module_setting_no_modules fields name key default :
  Main.lookup_field "modules" fields = None ->
  Dashboard.module_setting (Main.JObj fields) name key default = Some default.
Proof.
  intros Hno. unfold Dashboard.module_setting. simpl. by rewrite Hno.
Qed.

Lemma module_enabled_setting config name :
  Main.module_enabled config name
  = Main.truthy
    <$> Dashboard.module_setting config name "enabled" (Main.JBool true).
Proof.
  unfold Main.module_enabled, Dashboard.module_setting.
  destruct (Main.get config "modules" (Main.JObj [])) as [modules|]; [|done].
  simpl. by destruct (Main.get modules name (Main.JObj [])).
Qed.

(** X22: a configuration without a [modules] entry turns nothing off: the
    camera, the media module with the library path ['~/media'] and the
    system module with the interval [2] are all created, in this order. *)
Theorem init_modules_without_section (fields : list (string * Main.json)) :
  Main.lookup_field "modules" fields = None ->
  Dashboard._init_modules (Main.JObj fields)
  = Some [ Dashboard.CreatedCamera;
           Dashboard.CreatedMedia (Main.JStr "~/media");
           Dashboard.CreatedSystem (Main.JNum 2) ].
Proof.
  intros Hno. unfold Dashboard._init_modules.
  rewrite !module_enabled_setting, !module_setting_no_modules by done.
  simpl. by rewrite ?module_setting_no_modules.
Qed.

Lemma init_modules_without_section_witness :
  Dashboard._init_modules (Main.JObj [("server", Main.JObj [])])
  = Some [ Dashboard.CreatedCamera;
           Dashboard.CreatedMedia (Main.JStr "~/media");
           Dashboard.CreatedSystem (Main.JNum 2) ].
Proof.
  apply (init_modules_without_section [("server", Main.JObj [])]).
  reflexivity.
Defined.

(** X23: each of the three modules is created exactly when its own
    [enabled] setting is true or absent, whatever the settings of the
    others; the modules created keep the order camera, media, system. *)
Theorem init_modules_by_enabled (config : Main.json)
  (modules : list Dashboard.created) :
  Dashboard._init_modules config = Some modules ->
  ("camera" ∈ map Dashboard.key_of modules
   <-> Main.module_enabled config "camera" = Some true)
  /\ ("media" ∈ map Dashboard.key_of modules
      <-> Main.module_enabled config "media" = Some true)
  /\ ("system" ∈ map Dashboard.key_of modules
      <-> Main.module_enabled config "system" = Some true)
  /\ sublist (map Dashboard.key_of modules) ["camera"; "media"; "system"].
Proof.
  unfold Dashboard._init_modules.
  destruct (Main.module_enabled config "camera") as [camera|]; [|done].
  destruct (Main.module_enabled config "media") as [media|]; [|done].
  simpl.
  destruct (if media then _ else _) as [media_path|]; [|done].
  destruct (Main.module_enabled config "system") as [system|]; [|done].
  simpl.
  destruct (if system then _ else _) as [update_interval|]; [|done].
  simpl. intros [= <-].
  destruct camera, media, system; simpl;
    rewrite ?elem_of_cons, ?elem_of_nil;
    (split; [|split; [|split]]);
    try (split; [intros; try done; intuition congruence|by auto]);
    repeat first [apply sublist_skip | apply sublist_cons | apply sublist_nil].
Qed.

Lemma init_modules_by_enabled_witness :
  "media" ∈ map Dashboard.key_of
              [Dashboard.CreatedCamera; Dashboard.CreatedMedia (Main.JStr "~/media");
               Dashboard.CreatedSystem (Main.JNum 2)]
  <-> Main.module_enabled Main._get_default_config "media" = Some true.
Proof.
  apply (init_modules_by_enabled Main._get_default_config
           [Dashboard.CreatedCamera; Dashboard.CreatedMedia (Main.JStr "~/media");
            Dashboard.CreatedSystem (Main.JNum 2)]).
  reflexivity.
Defined.

(** X24: without a [server] entry, or with an empty one, [run] serves on
    host [0.0.0.0], port [5000], with debug off; an entry that sets only
    some of the three leaves the others at these defaults. *)
Theorem run_settings_defaults (fields : list (string * Main.json))
  (server : list (string * Main.json)) :
  (Main.lookup_field "server" fields = None /\ server = [])
  \/ Main.lookup_field "server" fields = Some (Main.JObj server) ->
  Dashboard.run_settings (Main.JObj fields)
  = Some (default (Main.JStr "0.0.0.0") (Main.lookup_field "host" server),
          default (Main.JNum 5000) (Main.lookup_field "port" server),
          default (Main.JBool false) (Main.lookup_field "debug" server)).
Proof.
  unfold Dashboard.run_settings, Main.server_setting. simpl.
  intros [[Hno ->]|Hsome].
  - by rewrite Hno.
  - rewrite Hsome. simpl.
    by destruct (Main.lookup_field "host" server),
         (Main.lookup_field "port" server),
         (Main.lookup_field "debug" server).
Qed.

Lemma run_settings_defaults_witness :
  Dashboard.run_settings
    (Main.JObj [("server", Main.JObj [("port", Main.JNum 8080)])])
  = Some (Main.JStr "0.0.0.0", Main.JNum 8080, Main.JBool false).
Proof.
  apply (run_settings_defaults
           [("server", Main.JObj [("port", Main.JNum 8080)])]
           [("port", Main.JNum 8080)]).
  right. reflexivity.
Defined.

Lemma load_config_nothing env config_path :
  (forall p, p ∈ Main.looked_up env config_path ->
             Main.path_exists env p = false) ->
  Main._load_config env config_path = Main.Returns Main._get_default_config.
Proof.
  intros Hno. unfold Main._load_config.
  destruct config_path as [p|]; simpl in Hno.
  - rewrite (Hno p) by apply list_elem_of_here.
    by rewrite andb_false_r.
  - by rewrite first_existing_none.
Qed.

(** X25: with no configuration file anywhere, the dashboard comes up with
    the built-in configuration, creates the camera module, the media module
    on ['~/media'] and the system module with the interval [2], and serves
    on host [0.0.0.0], port [5000], with debug off. *)
Theorem dashboard_without_config (env : Main.Env) (config_path : option string) :
  (forall p, p ∈ Main.looked_up env config_path ->
             Main.path_exists env p = false) ->
  Dashboard.PiDashboard env config_path
  = Main.Returns
      (Main._get_default_config,
       [ Dashboard.CreatedCamera;
         Dashboard.CreatedMedia (Main.JStr "~/media");
         Dashboard.CreatedSystem (Main.JNum 2) ])
  /\ Dashboard.run_settings Main._get_default_config
     = Some (Main.JStr "0.0.0.0", Main.JNum 5000, Main.JBool false).
Proof.
  intros Hno. split; [|reflexivity].
  unfold Dashboard.PiDashboard. by rewrite load_config_nothing.
Qed.

Lemma dashboard_without_config_witness :
  Dashboard.PiDashboard demo_env None
  = Main.Returns
      (Main._get_default_config,
       [ Dashboard.CreatedCamera;
         Dashboard.CreatedMedia (Main.JStr "~/media");
         Dashboard.CreatedSystem (Main.JNum 2) ]).
Proof.
  apply (dashboard_without_config demo_env None).
  intros p _. reflexivity.
Defined.

(** X26: the two tests of [enabled] disagree on a module whose entry has
    no [enabled] key, or that has no entry: [_init_modules] takes it for
    enabled and creates it, [load_module] takes it for disabled and skips
    it. *)
Theorem enabled_defaults_disagree (fields modules : list (string * Main.json))
  (module_name : string) :
  Main.lookup_field "modules" fields = Some (Main.JObj modules) ->
  Main.lookup_field module_name modules = None
  \/ (exists entry,
        Main.lookup_field module_name modules = Some (Main.JObj entry)
        /\ Main.lookup_field "enabled" entry = None) ->
  Main.module_enabled (Main.JObj fields) module_name = Some true
  /\ Dashboard.load_module (Main.JObj fields) module_name = Some false.
Proof.
  intros Hmods Hentry.
  unfold Main.module_enabled, Dashboard.load_module, Dashboard.module_setting.
  simpl. rewrite Hmods. simpl.
  destruct Hentry as [Hno|(entry & Hentry & Hkey)].
  - by rewrite Hno.
  - rewrite Hentry. simpl. by rewrite Hkey.
Qed.

Lemma enabled_defaults_disagree_witness :
  Main.module_enabled
    (Main.JObj [("modules", Main.JObj [("camera", Main.JObj [])])]) "camera"
  = Some true
  /\ Dashboard.load_module
       (Main.JObj [("modules", Main.JObj [("camera", Main.JObj [])])]) "camera"
     = Some false.
Proof.
  apply (enabled_defaults_disagree
           [("modules", Main.JObj [("camera", Main.JObj [])])]
           [("camera", Main.JObj [])] "camera").
  - reflexivity.
  - right. exists []. split; reflexivity.
Defined.

(** ** Starting a feed *)

(** X27: [start] answers [True] exactly when OpenCV is there, the device
    opens and is set, and the capture thread starts; then the feed runs,
    with its thread and an opened capture object.  A start that fails before
    the device is opened and set creates no thread and does not set the
    running flag; one that fails because [Thread.start()] raises has set the
    flag and assigned the thread already, and answers [False] all the same.
    The capture object is kept as it was only when OpenCV is not there or
    [cv2.VideoCapture] raises.  The frame slot, the identity and the name
    are never written. *)
Theorem start_outcome (cv2 : Camera.Cv2) (self : Camera.CameraFeed) :
  ((Camera.start cv2 self).1 = true
   <-> Camera.CV2_AVAILABLE cv2 = true
       /\ Camera.VideoCapture cv2 (Camera.camera_id self) = Camera.CaptureOpened
       /\ Camera.Thread_start cv2 (Camera.camera_id self) = true)
  /\ ((Camera.start cv2 self).1 = true ->
      Camera.running (Camera.start cv2 self).2 = true
      /\ Camera.thread (Camera.start cv2 self).2 = true
      /\ Camera.camera (Camera.start cv2 self).2 = Some true)
  /\ ((Camera.start cv2 self).1 = false ->
      (Camera.CV2_AVAILABLE cv2 = true
       /\ Camera.VideoCapture cv2 (Camera.camera_id self) = Camera.CaptureOpened
       /\ Camera.running (Camera.start cv2 self).2 = true
       /\ Camera.thread (Camera.start cv2 self).2 = true
       /\ Camera.camera (Camera.start cv2 self).2 = Some true)
      \/ ((Camera.CV2_AVAILABLE cv2 = false
           \/ Camera.VideoCapture cv2 (Camera.camera_id self)
              <> Camera.CaptureOpened)
          /\ Camera.running (Camera.start cv2 self).2 = Camera.running self
          /\ Camera.thread (Camera.start cv2 self).2 = Camera.thread self))
  /\ ((Camera.CV2_AVAILABLE cv2 = false
       \/ Camera.VideoCapture cv2 (Camera.camera_id self) = Camera.CaptureRaises) ->
      Camera.start cv2 self = (false, self))
  /\ Camera.frame (Camera.start cv2 self).2 = Camera.frame self
  /\ Camera.camera_id (Camera.start cv2 self).2 = Camera.camera_id self
  /\ Camera.name (Camera.start cv2 self).2 = Camera.name self.
Proof.
  unfold Camera.start.
  destruct (Camera.CV2_AVAILABLE cv2); simpl;
    [destruct (Camera.VideoCapture cv2 (Camera.camera_id self)) eqn:Hcap;
     simpl|].
  all: split; [split; [try done|by intros (? & ? & ?)]|].
  all: split; [try done|].
  all: split; [|split; [by intros [?|?]|done]].
  all: try (intros _; right; split; [by (left + right)|done]).
  intros _. by left.
Qed.
